(** * avalanche/training/strategies.py: the Naive, MTNaive and CWRStar wrappers

    A shallow embedding of the three strategy constructors.  Python values
    are a small tagged union, objects live in a store indexed by location,
    and a constructor body is a computation over the store that either
    returns or raises.  The base class [BaseStrategy] and the two plugin
    classes are imported by the module, so their constructors are the
    parameters of the development. *)

From Stdlib Require Import String ZArith List Lia.
From stdpp Require Import base list.
Import ListNotations.
Open Scope string_scope.
Open Scope list_scope.

(** ** Values and the object store *)

Definition loc := nat.

Inductive value : Type :=
| VNone
| VBool (b : bool)
| VInt (z : Z)
| VStr (s : string)
| VRef (l : loc).

Inductive object : Type :=
| ListObj (items : list value)
| Instance (cls : string) (attrs : list (string * value)).

Abbreviation heap := (list object).

Record exn : Type := Exn { exn_class : string; exn_msg : string }.

Definition TypeError (msg : string) : exn := Exn "TypeError" msg.
Definition AttributeError (msg : string) : exn := Exn "AttributeError" msg.

(** ** Computations: store passing with exceptions *)

Inductive outcome (A : Type) : Type :=
| Return (a : A) (h : heap)
| Raise (e : exn) (h : heap).
Arguments Return {A} a h.
Arguments Raise {A} e h.

Definition M (A : Type) : Type := heap -> outcome A.

Definition ret {A} (a : A) : M A := fun h => Return a h.
Definition raise {A} (e : exn) : M A := fun h => Raise e h.
Definition bind {A B} (m : M A) (k : A -> M B) : M B :=
  fun h => match m h with
           | Return a h' => k a h'
           | Raise e h' => Raise e h'
           end.

Notation "'let!' x ':=' m 'in' k" := (bind m (fun x => k))
  (at level 10, x name, m at level 100, k at level 200).

(** A keyword argument list, in call order. *)
Abbreviation kwargs := (list (string * value)).

(** The shape of a callable of the imported modules: positional and keyword
    arguments in, a value or an exception out, with the store threaded. *)
Abbreviation callable := (list value -> kwargs -> M value).

(** ** Lists in the store *)

(** The list display [[v]]: a new list object, at the next free location. *)
Definition new_list (items : list value) : M value :=
  fun h => Return (VRef (length h)) (h ++ [ListObj items]).

(** [target.append(v)].  Only list objects carry [append] here; any other
    receiver raises [AttributeError], as Python does for an object without
    that attribute. *)
Definition list_append (target v : value) : M value :=
  fun h =>
    match target with
    | VRef l =>
        match h !! l with
        | Some (ListObj items) => Return VNone (<[l := ListObj (items ++ [v])]> h)
        | _ => Raise (AttributeError "append") h
        end
    | _ => Raise (AttributeError "append") h
    end.

(** [v is None] *)
Definition is_None (v : value) : bool :=
  match v with VNone => true | _ => false end.

(** The statement [if plugins is None: plugins = [p] else: plugins.append(p)]
    of [MTNaive.__init__] and [CWRStar.__init__], as a computation of the
    new value of [plugins] from the plugin just built. *)
Definition extend (plugins p : value) : M value :=
  if is_None plugins then new_list [p]
  else (let! _r := list_append plugins p in ret plugins).

(** [v] is a legal [plugins] argument in store [h]: [None] or a reference
    to a list object ([Optional[List[StrategyPlugin]]]). *)
Definition is_plugins_arg (h : heap) (v : value) : bool :=
  match v with
  | VNone => true
  | VRef l => match h !! l with Some (ListObj _) => true | _ => false end
  | _ => false
  end.

(** The items of the list a value refers to, if it refers to one. *)
Definition plugin_sequence (h : heap) (v : value) : option (list value) :=
  match v with
  | VRef l => match h !! l with Some (ListObj items) => Some items | _ => None end
  | _ => None
  end.

(** ** Signatures and argument binding *)

Record param : Type := Param { p_name : string; p_default : option value }.

Fixpoint kw_get (n : string) (kw : kwargs) : option value :=
  match kw with
  | [] => None
  | (k, v) :: kw' => if String.eqb n k then Some v else kw_get n kw'
  end.

Fixpoint kw_remove (n : string) (kw : kwargs) : kwargs :=
  match kw with
  | [] => []
  | (k, v) :: kw' =>
      if String.eqb n k then kw_remove n kw' else (k, v) :: kw_remove n kw'
  end.

(** Python's binding of a call's arguments to a [def]'s parameters, for a
    signature of plain positional-or-keyword parameters (no [*args], no
    [**kwargs]): positionals fill the parameters from the left, keywords
    fill the rest by name, an unfilled parameter takes its default, and
    anything else is a [TypeError].  The result lists the bound values in
    the order of the signature. *)
Fixpoint bind_args (sig : list param) (pos : list value) (kw : kwargs)
  : exn + list value :=
  match sig with
  | [] =>
      match pos, kw with
      | [], [] => inr []
      | _ :: _, _ => inl (TypeError "too many positional arguments")
      | [], _ :: _ => inl (TypeError "unexpected keyword argument")
      end
  | p :: sig' =>
      match pos with
      | v :: pos' =>
          match kw_get (p_name p) kw with
          | Some _ => inl (TypeError "multiple values for argument")
          | None =>
              match bind_args sig' pos' kw with
              | inr vs => inr (v :: vs)
              | inl e => inl e
              end
          end
      | [] =>
          match kw_get (p_name p) kw, p_default p with
          | Some v, _ | None, Some v =>
              match bind_args sig' [] (kw_remove (p_name p) kw) with
              | inr vs => inr (v :: vs)
              | inl e => inl e
              end
          | None, None => inl (TypeError "missing required argument")
          end
      end
  end.

Definition required (n : string) : param := Param n None.
Definition optional (n : string) (d : value) : param := Param n (Some d).

(** The parameters of [Naive.__init__], after [self]. *)
Definition Naive_sig : list param :=
  [ required "model"; required "optimizer"; required "criterion";
    optional "evaluation_protocol" VNone;
    optional "train_mb_size" (VInt 1); optional "train_epochs" (VInt 1);
    optional "test_mb_size" VNone; optional "device" VNone;
    optional "plugins" VNone ].

(** The parameters of [MTNaive.__init__], after [self]. *)
Definition MTNaive_sig : list param :=
  [ required "model"; required "optimizer"; required "criterion";
    optional "evaluation_protocol" VNone;
    optional "train_mb_size" (VInt 1); optional "train_epochs" (VInt 1);
    optional "test_mb_size" VNone; optional "device" VNone;
    optional "plugins" VNone;
    optional "classifier_field" (VStr "classifier");
    optional "keep_initial_layer" (VBool false) ].

(** The parameters of [CWRStar.__init__], after [self]. *)
Definition CWRStar_sig : list param :=
  [ required "model"; required "optimizer"; required "criterion";
    required "second_last_layer_name"; optional "num_classes" (VInt 50);
    optional "evaluation_protocol" VNone;
    optional "train_mb_size" (VInt 1); optional "train_epochs" (VInt 1);
    optional "test_mb_size" VNone; optional "device" VNone;
    optional "plugins" VNone ].

(** ** Reading a bound argument by name *)

(** The value bound to parameter [n], given the values in signature order. *)
Fixpoint bound (sig : list param) (vs : list value) (n : string) : value :=
  match sig, vs with
  | p :: sig', v :: vs' => if String.eqb n (p_name p) then v else bound sig' vs' n
  | _, _ => VNone
  end.

(** The defaults as the interface description lists them; a parameter it
    calls required has none. *)
Definition claimed_default (n : string) : option value :=
  if String.eqb n "evaluation_protocol" then Some VNone
  else if String.eqb n "train_mb_size" then Some (VInt 1)
  else if String.eqb n "train_epochs" then Some (VInt 1)
  else if String.eqb n "test_mb_size" then Some VNone
  else if String.eqb n "device" then Some VNone
  else if String.eqb n "plugins" then Some VNone
  else if String.eqb n "classifier_field" then Some (VStr "classifier")
  else if String.eqb n "keep_initial_layer" then Some (VBool false)
  else if String.eqb n "num_classes" then Some (VInt 50)
  else None.

(** ** Stand-ins for the imported classes

    Concrete callables on which the statements below are exercised. *)

(** A plugin class whose constructor allocates an instance that records
    the arguments it was built from. *)
Definition recording_plugin (cls : string) (names : list string) : callable :=
  fun pos kw h =>
    Return (VRef (length h)) (h ++ [Instance cls (combine names pos ++ kw)]).

(** A base constructor that stores what it receives on [self]. *)
Definition recording_base : value -> callable :=
  fun self pos kw h =>
    match self with
    | VRef l =>
        match h !! l with
        | Some (Instance cls _) =>
            Return VNone
              (<[l := Instance cls
                        (combine ["model"; "criterion"; "optimizer";
                                  "evaluation_protocol"] pos ++ kw)]> h)
        | _ => Raise (TypeError "self") h
        end
    | _ => Raise (TypeError "self") h
    end.

(** Constructors that fail. *)
Definition failing (e : exn) : callable := fun _ _ h => Raise e h.
Definition failing_base (e : exn) : value -> callable :=
  fun _ _ _ h => Raise e h.

(** The two plugin classes, as recording stand-ins. *)
Definition mh_stub : callable := recording_plugin "MultiHeadPlugin" ["model"].
Definition cwr_stub : callable :=
  recording_plugin "CWRStarPlugin"
    ["model"; "second_last_layer_name"; "num_classes"].

(** A store as a caller may hold it: the strategy under construction, a
    model, an optimizer, a loss, two plugins of the caller, the caller's
    list of the two, and an empty list. *)
Definition sample_heap : heap :=
  [ Instance "Strategy" []; Instance "Module" []; Instance "Optimizer" [];
    Instance "CrossEntropyLoss" [];
    Instance "StrategyPlugin" []; Instance "StrategyPlugin" [];
    ListObj [VRef 4; VRef 5]; ListObj [] ].

Definition s_self : value := VRef 0.
Definition s_model : value := VRef 1.
Definition s_optimizer : value := VRef 2.
Definition s_criterion : value := VRef 3.
Definition s_plugins : loc := 6.
Definition s_empty : loc := 7.

(** ** Shapes of signatures, values and callables *)

(** The parameter names of a signature, in order. *)
Definition param_names (sig : list param) : list string := map p_name sig.

Definition has_default (p : param) : bool :=
  match p_default p with Some _ => true | None => false end.

(** The number of parameters without a default. *)
Fixpoint n_required (sig : list param) : nat :=
  match sig with
  | [] => 0
  | p :: sig' => (if has_default p then 0 else 1) + n_required sig'
  end.

(** No parameter without a default follows one with a default, which
    Python demands of every [def]. *)
Fixpoint defaults_last (sig : list param) : bool :=
  match sig with
  | [] => true
  | p :: sig' =>
      if has_default p then forallb has_default sig' else defaults_last sig'
  end.

(** A bool, an int or a str: values that have no [append] attribute. *)
Definition is_scalar (v : value) : bool :=
  match v with
  | VBool _ | VInt _ | VStr _ => true
  | _ => false
  end.

(** The computation [f], when it returns, leaves every list object at [l]
    with the items it had. *)
Definition keeps_list (l : loc) (f : M value) : Prop :=
  forall h items v h',
    h !! l = Some (ListObj items) -> f h = Return v h' ->
    h' !! l = Some (ListObj items).

(** ** The constructors, as the interface describes them

    What a call does once its arguments are bound to [vs]: the model, the
    criterion, the optimizer and the evaluation protocol go to the base
    constructor by position, the configuration and the plugins by keyword;
    [MTNaive] and [CWRStar] first build their plugin from the bound
    arguments and extend [plugins] with it.  These follow the description
    of the interface and are compared with the constructors below. *)

Definition expected_Naive (Base : value -> callable) (self : value)
    (vs : list value) : M value :=
  Base self
    [bound Naive_sig vs "model"; bound Naive_sig vs "criterion";
     bound Naive_sig vs "optimizer";
     bound Naive_sig vs "evaluation_protocol"]
    [("train_mb_size", bound Naive_sig vs "train_mb_size");
     ("train_epochs", bound Naive_sig vs "train_epochs");
     ("test_mb_size", bound Naive_sig vs "test_mb_size");
     ("device", bound Naive_sig vs "device");
     ("plugins", bound Naive_sig vs "plugins")].

Definition expected_MTNaive (Base : value -> callable) (MHP : callable)
    (self : value) (vs : list value) : M value :=
  let! mhp := MHP [bound MTNaive_sig vs "model"]
                [("classifier_field", bound MTNaive_sig vs "classifier_field");
                 ("keep_initial_layer",
                  bound MTNaive_sig vs "keep_initial_layer")] in
  let! plugins' := extend (bound MTNaive_sig vs "plugins") mhp in
  Base self
    [bound MTNaive_sig vs "model"; bound MTNaive_sig vs "criterion";
     bound MTNaive_sig vs "optimizer";
     bound MTNaive_sig vs "evaluation_protocol"]
    [("train_mb_size", bound MTNaive_sig vs "train_mb_size");
     ("train_epochs", bound MTNaive_sig vs "train_epochs");
     ("test_mb_size", bound MTNaive_sig vs "test_mb_size");
     ("device", bound MTNaive_sig vs "device");
     ("plugins", plugins')].

Definition expected_CWRStar (Base : value -> callable) (CWP : callable)
    (self : value) (vs : list value) : M value :=
  let! cwsp := CWP [bound CWRStar_sig vs "model";
                    bound CWRStar_sig vs "second_last_layer_name";
                    bound CWRStar_sig vs "num_classes"] [] in
  let! plugins' := extend (bound CWRStar_sig vs "plugins") cwsp in
  Base self
    [bound CWRStar_sig vs "model"; bound CWRStar_sig vs "criterion";
     bound CWRStar_sig vs "optimizer";
     bound CWRStar_sig vs "evaluation_protocol"]
    [("train_mb_size", bound CWRStar_sig vs "train_mb_size");
     ("train_epochs", bound CWRStar_sig vs "train_epochs");
     ("test_mb_size", bound CWRStar_sig vs "test_mb_size");
     ("device", bound CWRStar_sig vs "device");
     ("plugins", plugins')].

(** ** The constructors *)

Section Strategies.

(** [BaseStrategy.__init__] (bound to [self]), [MultiHeadPlugin] and
    [CWRStarPlugin], from avalanche.training.base_strategy and
    avalanche.training.plugins. *)
Variable BaseStrategy_init : value -> callable.
Variable MultiHeadPlugin : callable.
Variable CWRStarPlugin : callable.

(** The arguments of the [super().__init__] call, which the three
    constructors write alike. *)
Definition super_init (self model criterion optimizer evaluation_protocol
    train_mb_size train_epochs test_mb_size device plugins : value)
  : M value :=
  BaseStrategy_init self
    [model; criterion; optimizer; evaluation_protocol]
    [("train_mb_size", train_mb_size); ("train_epochs", train_epochs);
     ("test_mb_size", test_mb_size); ("device", device);
     ("plugins", plugins)].

Definition Naive_init (self model optimizer criterion evaluation_protocol
    train_mb_size train_epochs test_mb_size device plugins : value)
  : M value :=
  BaseStrategy_init self
    [model; criterion; optimizer; evaluation_protocol]
    [("train_mb_size", train_mb_size); ("train_epochs", train_epochs);
     ("test_mb_size", test_mb_size); ("device", device);
     ("plugins", plugins)].

Definition MTNaive_init (self model optimizer criterion evaluation_protocol
    train_mb_size train_epochs test_mb_size device plugins
    classifier_field keep_initial_layer : value) : M value :=
  let! mhp := MultiHeadPlugin [model]
                [("classifier_field", classifier_field);
                 ("keep_initial_layer", keep_initial_layer)] in
  let! plugins := (if is_None plugins
                   then new_list [mhp]
                   else (let! _r := list_append plugins mhp in
                         ret plugins)) in
  BaseStrategy_init self
    [model; criterion; optimizer; evaluation_protocol]
    [("train_mb_size", train_mb_size); ("train_epochs", train_epochs);
     ("test_mb_size", test_mb_size); ("device", device);
     ("plugins", plugins)].

Definition CWRStar_init (self model optimizer criterion
    second_last_layer_name num_classes evaluation_protocol
    train_mb_size train_epochs test_mb_size device plugins : value)
  : M value :=
  let! cwsp := CWRStarPlugin
                 [model; second_last_layer_name; num_classes] [] in
  let! plugins := (if is_None plugins
                   then new_list [cwsp]
                   else (let! _r := list_append plugins cwsp in
                         ret plugins)) in
  BaseStrategy_init self
    [model; criterion; optimizer; evaluation_protocol]
    [("train_mb_size", train_mb_size); ("train_epochs", train_epochs);
     ("test_mb_size", test_mb_size); ("device", device);
     ("plugins", plugins)].

(** [X.__init__(self, *pos, **kw)]: bind the arguments, then run the body. *)
Definition Naive_call (self : value) (pos : list value) (kw : kwargs)
  : M value :=
  match bind_args Naive_sig pos kw with
  | inl e => raise e
  | inr [model; optimizer; criterion; evaluation_protocol; train_mb_size;
         train_epochs; test_mb_size; device; plugins] =>
      Naive_init self model optimizer criterion evaluation_protocol
        train_mb_size train_epochs test_mb_size device plugins
  | inr _ => raise (TypeError "arity")
  end.

Definition MTNaive_call (self : value) (pos : list value) (kw : kwargs)
  : M value :=
  match bind_args MTNaive_sig pos kw with
  | inl e => raise e
  | inr [model; optimizer; criterion; evaluation_protocol; train_mb_size;
         train_epochs; test_mb_size; device; plugins; classifier_field;
         keep_initial_layer] =>
      MTNaive_init self model optimizer criterion evaluation_protocol
        train_mb_size train_epochs test_mb_size device plugins
        classifier_field keep_initial_layer
  | inr _ => raise (TypeError "arity")
  end.

Definition CWRStar_call (self : value) (pos : list value) (kw : kwargs)
  : M value :=
  match bind_args CWRStar_sig pos kw with
  | inl e => raise e
  | inr [model; optimizer; criterion; second_last_layer_name; num_classes;
         evaluation_protocol; train_mb_size; train_epochs; test_mb_size;
         device; plugins] =>
      CWRStar_init self model optimizer criterion second_last_layer_name
        num_classes evaluation_protocol train_mb_size train_epochs
        test_mb_size device plugins
  | inr _ => raise (TypeError "arity")
  end.

End Strategies.

(** ** Argument binding: general facts *)

Lemma kw_get_remove_other (n n' : string) (kw : kwargs) :
  kw_get n kw = None -> kw_get n (kw_remove n' kw) = None.
Proof.
  induction kw as [|[k v] kw IH]; simpl; [reflexivity|].
  destruct (String.eqb n k) eqn:Hn; [discriminate|].
  intros Hget. destruct (String.eqb n' k); simpl.
  - apply IH, Hget.
  - rewrite Hn. apply IH, Hget.
Qed.

(** Every failure of the binding is a [TypeError]. *)
Lemma bind_args_error (sig : list param) :
  forall pos kw e, bind_args sig pos kw = inl e -> exists msg, e = TypeError msg.
Proof.
  induction sig as [|p sig IH]; intros pos kw e; simpl.
  - destruct pos, kw; intros H; inversion H; eauto.
  - destruct pos as [|v pos].
    + destruct (kw_get (p_name p) kw), (p_default p);
        try (destruct (bind_args sig [] _) eqn:Hrec;
             intros H; inversion H; subst; eapply IH; eassumption).
      intros H; inversion H; eauto.
    + destruct (kw_get (p_name p) kw).
      * intros H; inversion H; eauto.
      * destruct (bind_args sig pos kw) eqn:Hrec;
          intros H; inversion H; subst; eapply IH; eassumption.
Qed.

(** A successful binding gives one value per parameter. *)
Lemma bind_args_length (sig : list param) :
  forall pos kw vs, bind_args sig pos kw = inr vs -> length vs = length sig.
Proof.
  induction sig as [|p sig IH]; intros pos kw vs; simpl.
  - destruct pos, kw; intros H; inversion H; reflexivity.
  - destruct pos as [|v pos].
    + destruct (kw_get (p_name p) kw), (p_default p);
        try (destruct (bind_args sig [] _) eqn:Hrec;
             intros H; inversion H; subst; simpl; f_equal;
             eapply IH; eassumption).
      intros H; inversion H.
    + destruct (kw_get (p_name p) kw); [intros H; inversion H|].
      destruct (bind_args sig pos kw) eqn:Hrec;
        intros H; inversion H; subst; simpl; f_equal; eapply IH; eassumption.
Qed.

(** Positional arguments land on the leading parameters, in order. *)
Lemma bind_args_positional (sig : list param) :
  forall pos kw vs i v,
    bind_args sig pos kw = inr vs -> pos !! i = Some v -> vs !! i = Some v.
Proof.
  induction sig as [|p sig IH]; intros pos kw vs i v; simpl.
  - destruct pos, kw; intros H; inversion H; subst; intros Hi;
      solve [destruct i; discriminate Hi].
  - destruct pos as [|v0 pos]; [intros _ Hi; destruct i; discriminate Hi|].
    destruct (kw_get (p_name p) kw); [intros H; inversion H|].
    destruct (bind_args sig pos kw) eqn:Hrec; intros H; inversion H; subst.
    destruct i as [|i]; simpl; [tauto|]. eapply IH; eassumption.
Qed.

(** A parameter that the call supplies neither by position nor by keyword
    is bound to its default; the binding fails when it has none. *)
Lemma bind_args_omitted (sig : list param) :
  forall pos kw vs i p,
    bind_args sig pos kw = inr vs ->
    sig !! i = Some p -> length pos <= i -> kw_get (p_name p) kw = None ->
    exists d, p_default p = Some d /\ vs !! i = Some d.
Proof.
  induction sig as [|p0 sig IH]; intros pos kw vs i p; simpl.
  - intros _ Hi; destruct i; discriminate Hi.
  - destruct pos as [|v0 pos]; intros Hb Hi Hlen Hkw.
    + destruct i as [|i]; simpl in Hi.
      * inversion Hi; subst p0. rewrite Hkw in Hb.
        destruct (p_default p) as [d|]; [|discriminate].
        destruct (bind_args sig [] _); inversion Hb; subst. eauto.
      * destruct (kw_get (p_name p0) kw), (p_default p0);
          try discriminate;
          destruct (bind_args sig [] (kw_remove (p_name p0) kw)) eqn:Hrec;
          inversion Hb; subst; simpl;
          (eapply IH; [eassumption|eassumption|simpl; lia|
                       apply kw_get_remove_other; assumption]).
    + destruct i as [|i]; simpl in Hlen; [lia|]. simpl in Hi.
      destruct (kw_get (p_name p0) kw); [discriminate|].
      destruct (bind_args sig pos kw) eqn:Hrec; inversion Hb; subst; simpl.
      eapply IH; [eassumption|eassumption|lia|assumption].
Qed.

Lemma signature_names_distinct (sig : list param) :
  In sig [Naive_sig; MTNaive_sig; CWRStar_sig] -> NoDup (param_names sig).
Proof.
  intros [<-|[<-|[<-|[]]]];
    repeat (apply NoDup_cons_2;
            [rewrite ?not_elem_of_cons; repeat split;
             solve [discriminate | apply not_elem_of_nil]|]);
    apply NoDup_nil_2.
Qed.

Lemma bound_lookup (sig : list param) :
  forall vs i p v,
    NoDup (param_names sig) -> sig !! i = Some p -> vs !! i = Some v ->
    bound sig vs (p_name p) = v.
Proof.
  induction sig as [|p0 sig IH]; intros vs i p v Hnd Hi Hv.
  - destruct i; discriminate Hi.
  - apply NoDup_cons in Hnd as [Hnotin Hnd].
    destruct vs as [|v0 vs]; [destruct i; discriminate Hv|].
    destruct i as [|i]; simpl in Hi, Hv |- *.
    + inversion Hi; inversion Hv; subst. rewrite String.eqb_refl. reflexivity.
    + destruct (String.eqb (p_name p) (p_name p0)) eqn:Heq.
      * apply String.eqb_eq in Heq. exfalso. apply Hnotin. rewrite <- Heq.
        apply list_elem_of_fmap. exists p. split; [reflexivity|].
        eapply list_elem_of_lookup_2, Hi.
      * eapply IH; eassumption.
Qed.

(** ** The constructor bodies, branch by branch *)

Section Properties.

Variable Base : value -> callable.
Variables MHP CWP : callable.

Implicit Types self model optimizer criterion ep tmb te tsmb dev : value.
Implicit Types plugins cf kil slln nc p q r : value.
Implicit Types h : heap.
Implicit Types l : loc.
Implicit Types ps : list value.

Lemma MTNaive_init_unfold self model optimizer criterion ep tmb te tsmb dev
    plugins cf kil h :
  MTNaive_init Base MHP self model optimizer criterion ep tmb te tsmb dev
    plugins cf kil h
  = (let! mhp := MHP [model] [("classifier_field", cf);
                              ("keep_initial_layer", kil)] in
     let! plugins' := extend plugins mhp in
     super_init Base self model criterion optimizer ep tmb te tsmb dev
       plugins') h.
Proof. reflexivity. Qed.

Lemma CWRStar_init_unfold self model optimizer criterion slln nc ep tmb te
    tsmb dev plugins h :
  CWRStar_init Base CWP self model optimizer criterion slln nc ep tmb te
    tsmb dev plugins h
  = (let! cwsp := CWP [model; slln; nc] [] in
     let! plugins' := extend plugins cwsp in
     super_init Base self model criterion optimizer ep tmb te tsmb dev
       plugins') h.
Proof. reflexivity. Qed.

Lemma bind_Return {A B} (m : M A) (k : A -> M B) h a h' :
  m h = Return a h' -> bind m k h = k a h'.
Proof. unfold bind. intros ->. reflexivity. Qed.

Lemma bind_Raise {A B} (m : M A) (k : A -> M B) h e h' :
  m h = Raise e h' -> bind m k h = Raise e h'.
Proof. unfold bind. intros ->. reflexivity. Qed.

(** [plugins is None]: a new one-element list at the next free location. *)
Lemma extend_None p h :
  extend VNone p h = Return (VRef (length h)) (h ++ [ListObj [p]]).
Proof. reflexivity. Qed.

(** [plugins] is a list object: that object grows by [p] at its end, and
    the same reference is kept. *)
Lemma extend_list l ps p h :
  h !! l = Some (ListObj ps) ->
  extend (VRef l) p h = Return (VRef l) (<[l := ListObj (ps ++ [p])]> h).
Proof.
  intros Hl. unfold extend, bind, list_append; simpl. rewrite Hl. reflexivity.
Qed.

(** Any receiver that is neither [None] nor a list object: the [append]
    fails and the store is as it was. *)
Lemma extend_not_list plugins p h :
  plugins <> VNone ->
  (forall l ps, plugins = VRef l -> h !! l <> Some (ListObj ps)) ->
  extend plugins p h = Raise (AttributeError "append") h.
Proof.
  intros Hnone Hlist. unfold extend, bind, list_append.
  destruct plugins as [| | | |l]; simpl; try reflexivity; [congruence|].
  destruct (h !! l) as [[ps|cls attrs]|] eqn:Hl; try reflexivity.
  exfalso. eapply Hlist; eauto.
Qed.

Lemma lookup_new_list h (o : object) : (h ++ [o]) !! length h = Some o.
Proof. rewrite lookup_app_r by lia. by rewrite Nat.sub_diag. Qed.

Lemma lookup_grown_list h l ps (o : object) :
  h !! l = Some (ListObj ps) -> <[l := o]> h !! l = Some o.
Proof.
  intros Hl. apply list_lookup_insert_eq. eapply lookup_lt_Some, Hl.
Qed.

(** ** The claims *)

Ltac split_args vs Hlen :=
  simpl in Hlen;
  repeat (destruct vs as [|? vs]; simpl in Hlen; try discriminate Hlen).

(** C1. Constructing [Naive] transforms nothing and hands every argument
    to the base constructor: whatever the call's arguments bind to, the
    base constructor receives the value bound to each parameter, the model,
    the criterion, the optimizer and the evaluation protocol by position and
    the others under their own names, on the store the call started from;
    and the outcome of the base constructor is the outcome of [Naive]. *)
Theorem Naive_forwards_arguments self pos kw vs h :
  bind_args Naive_sig pos kw = inr vs ->
  Naive_call Base self pos kw h
  = Base self
      [bound Naive_sig vs "model"; bound Naive_sig vs "criterion";
       bound Naive_sig vs "optimizer";
       bound Naive_sig vs "evaluation_protocol"]
      [("train_mb_size", bound Naive_sig vs "train_mb_size");
       ("train_epochs", bound Naive_sig vs "train_epochs");
       ("test_mb_size", bound Naive_sig vs "test_mb_size");
       ("device", bound Naive_sig vs "device");
       ("plugins", bound Naive_sig vs "plugins")] h
  /\ (forall i v, pos !! i = Some v -> vs !! i = Some v)
  /\ (forall model optimizer criterion ep tmb te tsmb dev plugins,
        Naive_init Base self model optimizer criterion ep tmb te tsmb dev
          plugins h
        = Base self [model; criterion; optimizer; ep]
            [("train_mb_size", tmb); ("train_epochs", te);
             ("test_mb_size", tsmb); ("device", dev);
             ("plugins", plugins)] h).
Proof.
  intros Hb. split; [|split].
  - unfold Naive_call. rewrite Hb.
    pose proof (bind_args_length _ _ _ _ Hb) as Hlen.
    split_args vs Hlen. reflexivity.
  - intros i v. apply bind_args_positional with (1 := Hb).
  - reflexivity.
Qed.

(** C2. [MTNaive] with [plugins=None]: the plugin sequence handed to the
    base constructor is a new list of length 1 whose only element is the
    [MultiHeadPlugin] built from the model, [classifier_field] and
    [keep_initial_layer]. *)
Theorem MTNaive_no_plugins_singleton self model optimizer criterion ep tmb
    te tsmb dev cf kil h mhp h1 :
  MHP [model] [("classifier_field", cf); ("keep_initial_layer", kil)] h
  = Return mhp h1 ->
  MTNaive_init Base MHP self model optimizer criterion ep tmb te tsmb dev
    VNone cf kil h
  = super_init Base self model criterion optimizer ep tmb te tsmb dev
      (VRef (length h1)) (h1 ++ [ListObj [mhp]])
  /\ (h1 ++ [ListObj [mhp]]) !! length h1 = Some (ListObj [mhp])
  /\ length [mhp] = 1.
Proof.
  intros Hp. split; [|split; [apply lookup_new_list|reflexivity]].
  rewrite MTNaive_init_unfold.
  rewrite (bind_Return _ _ _ _ _ Hp).
  rewrite (bind_Return _ _ _ _ _ (extend_None mhp h1)). reflexivity.
Qed.

(** C3. [MTNaive] with the caller's list [[p1, p2]]: the plugin sequence
    handed to the base constructor is [[p1, p2, mhp]], the caller's
    plugins in their order and the [MultiHeadPlugin] last. *)
Theorem MTNaive_appends_last self model optimizer criterion ep tmb te tsmb
    dev cf kil h l p1 p2 mhp h1 :
  h !! l = Some (ListObj [p1; p2]) ->
  MHP [model] [("classifier_field", cf); ("keep_initial_layer", kil)] h
  = Return mhp h1 ->
  h1 !! l = h !! l ->
  MTNaive_init Base MHP self model optimizer criterion ep tmb te tsmb dev
    (VRef l) cf kil h
  = super_init Base self model criterion optimizer ep tmb te tsmb dev
      (VRef l) (<[l := ListObj [p1; p2; mhp]]> h1)
  /\ <[l := ListObj [p1; p2; mhp]]> h1 !! l = Some (ListObj [p1; p2; mhp]).
Proof.
  intros Hl Hp Hframe. rewrite Hl in Hframe. split.
  - rewrite MTNaive_init_unfold.
    rewrite (bind_Return _ _ _ _ _ Hp).
    rewrite (bind_Return _ _ _ _ _ (extend_list _ _ mhp _ Hframe)).
    reflexivity.
  - eapply lookup_grown_list, Hframe.
Qed.

(** C4. [CWRStar] with [plugins=None]: the plugin sequence handed to the
    base constructor is a new one-element list holding the [CWRStarPlugin]
    built from the model, [second_last_layer_name] and [num_classes]; and
    [num_classes] is 50 when the call gives it neither by position nor by
    keyword. *)
Theorem CWRStar_no_plugins_singleton self pos kw vs h cwsp h1 :
  bind_args CWRStar_sig pos kw = inr vs ->
  bound CWRStar_sig vs "plugins" = VNone ->
  CWP [bound CWRStar_sig vs "model";
       bound CWRStar_sig vs "second_last_layer_name";
       bound CWRStar_sig vs "num_classes"] [] h
  = Return cwsp h1 ->
  CWRStar_call Base CWP self pos kw h
  = super_init Base self
      (bound CWRStar_sig vs "model") (bound CWRStar_sig vs "criterion")
      (bound CWRStar_sig vs "optimizer")
      (bound CWRStar_sig vs "evaluation_protocol")
      (bound CWRStar_sig vs "train_mb_size")
      (bound CWRStar_sig vs "train_epochs")
      (bound CWRStar_sig vs "test_mb_size")
      (bound CWRStar_sig vs "device")
      (VRef (length h1)) (h1 ++ [ListObj [cwsp]])
  /\ (h1 ++ [ListObj [cwsp]]) !! length h1 = Some (ListObj [cwsp])
  /\ (length pos <= 4 -> kw_get "num_classes" kw = None ->
      bound CWRStar_sig vs "num_classes" = VInt 50).
Proof.
  intros Hb Hnone Hp. split; [|split; [apply lookup_new_list|]].
  - unfold CWRStar_call. rewrite Hb.
    pose proof (bind_args_length _ _ _ _ Hb) as Hlen.
    split_args vs Hlen. simpl in Hnone, Hp |- *. subst.
    rewrite CWRStar_init_unfold.
    rewrite (bind_Return _ _ _ _ _ Hp).
    rewrite (bind_Return _ _ _ _ _ (extend_None cwsp h1)). reflexivity.
  - intros Hpos Hkw.
    destruct (bind_args_omitted CWRStar_sig pos kw vs 4
                (optional "num_classes" (VInt 50)) Hb eq_refl Hpos Hkw)
      as (d & Hd & Hv).
    inversion Hd; subst d.
    pose proof (bind_args_length _ _ _ _ Hb) as Hlen.
    split_args vs Hlen. simpl in Hv |- *. congruence.
Qed.

(** C5. A caller's list passed to [CWRStar], and likewise to [MTNaive],
    is itself grown by the plugin the constructor builds: the base
    constructor receives the caller's own reference, no other list is
    created, and once the constructor has returned the caller's list ends
    with that plugin (the plugin and base constructors leaving the
    caller's list alone). *)
Theorem caller_list_mutated_in_place self model optimizer criterion slln nc
    ep tmb te tsmb dev cf kil h l ps q k1 k3 mhp h1 h3 r r' :
  h !! l = Some (ListObj ps) ->
  CWP [model; slln; nc] [] h = Return q k1 ->
  k1 !! l = h !! l ->
  super_init Base self model criterion optimizer ep tmb te tsmb dev
    (VRef l) (<[l := ListObj (ps ++ [q])]> k1) = Return r k3 ->
  k3 !! l = <[l := ListObj (ps ++ [q])]> k1 !! l ->
  MHP [model] [("classifier_field", cf); ("keep_initial_layer", kil)] h
  = Return mhp h1 ->
  h1 !! l = h !! l ->
  super_init Base self model criterion optimizer ep tmb te tsmb dev
    (VRef l) (<[l := ListObj (ps ++ [mhp])]> h1) = Return r' h3 ->
  h3 !! l = <[l := ListObj (ps ++ [mhp])]> h1 !! l ->
  (CWRStar_init Base CWP self model optimizer criterion slln nc ep tmb te
     tsmb dev (VRef l) h = Return r k3
   /\ k3 !! l = Some (ListObj (ps ++ [q]))
   /\ length (<[l := ListObj (ps ++ [q])]> k1) = length k1)
  /\ (MTNaive_init Base MHP self model optimizer criterion ep tmb te tsmb
        dev (VRef l) cf kil h = Return r' h3
      /\ h3 !! l = Some (ListObj (ps ++ [mhp]))
      /\ length (<[l := ListObj (ps ++ [mhp])]> h1) = length h1).
Proof.
  intros Hl Hq Hk1 Hbq Hk3 Hp Hh1 Hbp Hh3.
  rewrite Hl in Hk1, Hh1. split; (split; [|split]).
  - rewrite CWRStar_init_unfold.
    rewrite (bind_Return _ _ _ _ _ Hq).
    rewrite (bind_Return _ _ _ _ _ (extend_list _ _ q _ Hk1)). exact Hbq.
  - rewrite Hk3. eapply lookup_grown_list, Hk1.
  - apply length_insert.
  - rewrite MTNaive_init_unfold.
    rewrite (bind_Return _ _ _ _ _ Hp).
    rewrite (bind_Return _ _ _ _ _ (extend_list _ _ mhp _ Hh1)). exact Hbp.
  - rewrite Hh3. eapply lookup_grown_list, Hh1.
  - apply length_insert.
Qed.

Lemma extend_member plugins p h :
  is_plugins_arg h plugins = true ->
  exists plugins' h2 items,
    extend plugins p h = Return plugins' h2
    /\ plugin_sequence h2 plugins' = Some items
    /\ items = match plugin_sequence h plugins with
               | Some ps => ps ++ [p]
               | None => [p]
               end
    /\ In p items.
Proof.
  destruct plugins as [| | | |l]; simpl; try discriminate.
  - intros _. exists (VRef (length h)), (h ++ [ListObj [p]]), [p].
    split; [reflexivity|]. simpl. rewrite lookup_new_list.
    repeat split. left; reflexivity.
  - destruct (h !! l) as [[ps|cls attrs]|] eqn:Hl; try discriminate.
    intros _. exists (VRef l), (<[l := ListObj (ps ++ [p])]> h), (ps ++ [p]).
    split; [apply extend_list, Hl|]. simpl.
    rewrite (lookup_grown_list _ _ _ _ Hl).
    repeat split. apply in_or_app. right. left. reflexivity.
Qed.

(** C6. Whatever the [plugins] argument, [None] or a list of the caller,
    the [MultiHeadPlugin] that [MTNaive] builds and the [CWRStarPlugin]
    that [CWRStar] builds is a member of the plugin sequence handed to the
    base constructor: that sequence is the caller's list with the plugin
    appended when there is one, and the plugin alone otherwise. *)
Theorem built_plugin_is_member self model optimizer criterion slln nc
    ep tmb te tsmb dev plugins cf kil h mhp h1 cwsp k1 :
  MHP [model] [("classifier_field", cf); ("keep_initial_layer", kil)] h
  = Return mhp h1 ->
  is_plugins_arg h1 plugins = true ->
  CWP [model; slln; nc] [] h = Return cwsp k1 ->
  is_plugins_arg k1 plugins = true ->
  (exists plugins' h2 items,
      MTNaive_init Base MHP self model optimizer criterion ep tmb te tsmb
        dev plugins cf kil h
      = super_init Base self model criterion optimizer ep tmb te tsmb dev
          plugins' h2
      /\ plugin_sequence h2 plugins' = Some items
      /\ items = match plugin_sequence h1 plugins with
                 | Some ps => ps ++ [mhp]
                 | None => [mhp]
                 end
      /\ In mhp items)
  /\ (exists plugins' k2 items,
        CWRStar_init Base CWP self model optimizer criterion slln nc ep tmb
          te tsmb dev plugins h
        = super_init Base self model criterion optimizer ep tmb te tsmb dev
            plugins' k2
        /\ plugin_sequence k2 plugins' = Some items
        /\ items = match plugin_sequence k1 plugins with
                   | Some ps => ps ++ [cwsp]
                   | None => [cwsp]
                   end
        /\ In cwsp items).
Proof.
  intros Hp Hv1 Hq Hv2. split.
  - destruct (extend_member plugins mhp h1 Hv1)
      as (plugins' & h2 & items & He & Hs & Hi & Hin).
    exists plugins', h2, items. split; [|repeat split; assumption].
    rewrite MTNaive_init_unfold.
    rewrite (bind_Return _ _ _ _ _ Hp).
    rewrite (bind_Return _ _ _ _ _ He). reflexivity.
  - destruct (extend_member plugins cwsp k1 Hv2)
      as (plugins' & k2 & items & He & Hs & Hi & Hin).
    exists plugins', k2, items. split; [|repeat split; assumption].
    rewrite CWRStar_init_unfold.
    rewrite (bind_Return _ _ _ _ _ Hq).
    rewrite (bind_Return _ _ _ _ _ He). reflexivity.
Qed.

Lemma bind_assoc {A B C} (m : M A) (f : A -> M B) (g : B -> M C) h :
  bind (bind m f) g h = bind m (fun a => bind (f a) g) h.
Proof. unfold bind. destruct (m h); reflexivity. Qed.

(** A call whose arguments bind runs the constructor on the bound values;
    a call whose arguments do not bind raises the binding's error on the
    store as it was. *)
Lemma Naive_call_bound self pos kw vs h :
  bind_args Naive_sig pos kw = inr vs ->
  Naive_call Base self pos kw h = expected_Naive Base self vs h.
Proof.
  intros Hb. unfold Naive_call. rewrite Hb.
  pose proof (bind_args_length _ _ _ _ Hb) as Hlen.
  split_args vs Hlen. reflexivity.
Qed.

Lemma MTNaive_call_bound self pos kw vs h :
  bind_args MTNaive_sig pos kw = inr vs ->
  MTNaive_call Base MHP self pos kw h = expected_MTNaive Base MHP self vs h.
Proof.
  intros Hb. unfold MTNaive_call. rewrite Hb.
  pose proof (bind_args_length _ _ _ _ Hb) as Hlen.
  split_args vs Hlen. reflexivity.
Qed.

Lemma CWRStar_call_bound self pos kw vs h :
  bind_args CWRStar_sig pos kw = inr vs ->
  CWRStar_call Base CWP self pos kw h = expected_CWRStar Base CWP self vs h.
Proof.
  intros Hb. unfold CWRStar_call. rewrite Hb.
  pose proof (bind_args_length _ _ _ _ Hb) as Hlen.
  split_args vs Hlen. reflexivity.
Qed.

Lemma Naive_call_unbound self pos kw e h :
  bind_args Naive_sig pos kw = inl e ->
  Naive_call Base self pos kw h = Raise e h.
Proof. intros Hb. unfold Naive_call. rewrite Hb. reflexivity. Qed.

Lemma MTNaive_call_unbound self pos kw e h :
  bind_args MTNaive_sig pos kw = inl e ->
  MTNaive_call Base MHP self pos kw h = Raise e h.
Proof. intros Hb. unfold MTNaive_call. rewrite Hb. reflexivity. Qed.

Lemma CWRStar_call_unbound self pos kw e h :
  bind_args CWRStar_sig pos kw = inl e ->
  CWRStar_call Base CWP self pos kw h = Raise e h.
Proof. intros Hb. unfold CWRStar_call. rewrite Hb. reflexivity. Qed.

Ltac each_param i Hi :=
  repeat (destruct i as [|i]; simpl in Hi;
          [inversion Hi; subst; reflexivity|]);
  discriminate Hi.

(** The signatures declare the defaults that the interface lists. *)
Lemma declared_defaults sig i (p : param) :
  In sig [Naive_sig; MTNaive_sig; CWRStar_sig] ->
  sig !! i = Some p -> p_default p = claimed_default (p_name p).
Proof.
  intros [<-|[<-|[<-|[]]]] Hi; each_param i Hi.
Qed.

(** C7. The defaults of the three constructors.  A parameter that a call
    leaves out is bound to the listed default and the constructor runs on
    it: 1 for [train_mb_size] and [train_epochs], [None] for
    [test_mb_size], [device], [evaluation_protocol] and [plugins],
    ["classifier"] and [False] for [classifier_field] and
    [keep_initial_layer], 50 for [num_classes]; [second_last_layer_name]
    and the three leading parameters have none, and a call of the
    constructor that leaves one of them out raises a [TypeError] on the
    store as it was.  The calls that give only the required arguments hand
    all the defaults to the plugin and base constructors. *)
Theorem constructor_defaults self sig pos kw i (p : param) m o c s h :
  In sig [Naive_sig; MTNaive_sig; CWRStar_sig] ->
  sig !! i = Some p -> length pos <= i -> kw_get (p_name p) kw = None ->
  match claimed_default (p_name p) with
  | Some d =>
      p_default p = Some d
      /\ forall vs, bind_args sig pos kw = inr vs -> vs !! i = Some d
  | None =>
      p_default p = None
      /\ exists msg, bind_args sig pos kw = inl (TypeError msg)
  end
  /\ bind_args Naive_sig [m; o; c] []
     = inr [m; o; c; VNone; VInt 1; VInt 1; VNone; VNone; VNone]
  /\ bind_args MTNaive_sig [m; o; c] []
     = inr [m; o; c; VNone; VInt 1; VInt 1; VNone; VNone; VNone;
            VStr "classifier"; VBool false]
  /\ bind_args CWRStar_sig [m; o; c; s] []
     = inr [m; o; c; s; VInt 50; VNone; VInt 1; VInt 1; VNone; VNone; VNone]
  /\ claimed_default "second_last_layer_name" = None
  /\ (exists msg, bind_args CWRStar_sig [m; o; c] [] = inl (TypeError msg))
  /\ match claimed_default (p_name p) with
     | Some d =>
         forall vs,
           bind_args sig pos kw = inr vs ->
           bound sig vs (p_name p) = d
           /\ (sig = Naive_sig ->
               Naive_call Base self pos kw h = expected_Naive Base self vs h)
           /\ (sig = MTNaive_sig ->
               MTNaive_call Base MHP self pos kw h
               = expected_MTNaive Base MHP self vs h)
           /\ (sig = CWRStar_sig ->
               CWRStar_call Base CWP self pos kw h
               = expected_CWRStar Base CWP self vs h)
     | None =>
         (sig = Naive_sig ->
          exists msg, Naive_call Base self pos kw h = Raise (TypeError msg) h)
         /\ (sig = MTNaive_sig ->
             exists msg,
               MTNaive_call Base MHP self pos kw h = Raise (TypeError msg) h)
         /\ (sig = CWRStar_sig ->
             exists msg,
               CWRStar_call Base CWP self pos kw h = Raise (TypeError msg) h)
     end
  /\ Naive_call Base self [m; o; c] [] h
     = Base self [m; c; o; VNone]
         [("train_mb_size", VInt 1); ("train_epochs", VInt 1);
          ("test_mb_size", VNone); ("device", VNone); ("plugins", VNone)] h
  /\ MTNaive_call Base MHP self [m; o; c] [] h
     = (let! mhp := MHP [m] [("classifier_field", VStr "classifier");
                             ("keep_initial_layer", VBool false)] in
        let! plugins' := extend VNone mhp in
        Base self [m; c; o; VNone]
          [("train_mb_size", VInt 1); ("train_epochs", VInt 1);
           ("test_mb_size", VNone); ("device", VNone);
           ("plugins", plugins')]) h
  /\ CWRStar_call Base CWP self [m; o; c; s] [] h
     = (let! cwsp := CWP [m; s; VInt 50] [] in
        let! plugins' := extend VNone cwsp in
        Base self [m; c; o; VNone]
          [("train_mb_size", VInt 1); ("train_epochs", VInt 1);
           ("test_mb_size", VNone); ("device", VNone);
           ("plugins", plugins')]) h
  /\ exists msg,
      CWRStar_call Base CWP self [m; o; c] [] h = Raise (TypeError msg) h.
Proof.
  intros Hsig Hi Hpos Hkw.
  pose proof (signature_names_distinct sig Hsig) as Hnd.
  rewrite <- (declared_defaults sig i p Hsig Hi).
  assert (Hreq : p_default p = None ->
                 exists msg, bind_args sig pos kw = inl (TypeError msg)).
  { intros Hd. destruct (bind_args sig pos kw) as [e|vs] eqn:Hb.
    - destruct (bind_args_error _ _ _ _ Hb) as [msg ->]. eauto.
    - destruct (bind_args_omitted sig pos kw vs i p Hb Hi Hpos Hkw)
        as (d' & Hd' & _). congruence. }
  assert (Hopt : forall d vs, p_default p = Some d ->
                              bind_args sig pos kw = inr vs ->
                              vs !! i = Some d).
  { intros d vs Hd Hb.
    destruct (bind_args_omitted sig pos kw vs i p Hb Hi Hpos Hkw)
      as (d' & Hd' & Hv). congruence. }
  destruct (p_default p) as [d|] eqn:Hd.
  - split; [split; [reflexivity|]|].
    { intros vs Hb. apply (Hopt d vs eq_refl Hb). }
    do 5 (split; [solve [reflexivity | eauto]|]).
    split; [|do 3 (split; [reflexivity|]); eexists; reflexivity].
    intros vs Hb. split; [|split; [|split]].
    + eapply bound_lookup; [exact Hnd|exact Hi|apply (Hopt d vs eq_refl Hb)].
    + intros Hs. subst sig. apply Naive_call_bound, Hb.
    + intros Hs. subst sig. apply MTNaive_call_bound, Hb.
    + intros Hs. subst sig. apply CWRStar_call_bound, Hb.
  - destruct (Hreq eq_refl) as [msg Hb].
    split; [split; [reflexivity|eauto]|].
    do 5 (split; [solve [reflexivity | eauto]|]).
    split; [|do 3 (split; [reflexivity|]); eexists; reflexivity].
    split; [|split]; intros Hs; subst sig; exists msg.
    + apply Naive_call_unbound, Hb.
    + apply MTNaive_call_unbound, Hb.
    + apply CWRStar_call_unbound, Hb.
Qed.

(** C8. No constructor catches or alters an error: an exception of the
    plugin constructor or of the base constructor is the outcome of the
    wrapper, with the same exception and the store the failing
    constructor left. *)
Theorem errors_propagate_unchanged self model optimizer criterion slln nc
    ep tmb te tsmb dev plugins cf kil h e h' :
  (Base self [model; criterion; optimizer; ep]
     [("train_mb_size", tmb); ("train_epochs", te); ("test_mb_size", tsmb);
      ("device", dev); ("plugins", plugins)] h = Raise e h' ->
   Naive_init Base self model optimizer criterion ep tmb te tsmb dev
     plugins h = Raise e h')
  /\ (MHP [model] [("classifier_field", cf); ("keep_initial_layer", kil)] h
      = Raise e h' ->
      MTNaive_init Base MHP self model optimizer criterion ep tmb te tsmb
        dev plugins cf kil h = Raise e h')
  /\ (forall mhp h1 plugins' h2,
        MHP [model] [("classifier_field", cf); ("keep_initial_layer", kil)] h
        = Return mhp h1 ->
        extend plugins mhp h1 = Return plugins' h2 ->
        Base self [model; criterion; optimizer; ep]
          [("train_mb_size", tmb); ("train_epochs", te);
           ("test_mb_size", tsmb); ("device", dev); ("plugins", plugins')]
          h2 = Raise e h' ->
        MTNaive_init Base MHP self model optimizer criterion ep tmb te tsmb
          dev plugins cf kil h = Raise e h')
  /\ (CWP [model; slln; nc] [] h = Raise e h' ->
      CWRStar_init Base CWP self model optimizer criterion slln nc ep tmb
        te tsmb dev plugins h = Raise e h')
  /\ (forall cwsp k1 plugins' k2,
        CWP [model; slln; nc] [] h = Return cwsp k1 ->
        extend plugins cwsp k1 = Return plugins' k2 ->
        Base self [model; criterion; optimizer; ep]
          [("train_mb_size", tmb); ("train_epochs", te);
           ("test_mb_size", tsmb); ("device", dev); ("plugins", plugins')]
          k2 = Raise e h' ->
        CWRStar_init Base CWP self model optimizer criterion slln nc ep tmb
          te tsmb dev plugins h = Raise e h').
Proof.
  repeat split.
  - intros Hb. exact Hb.
  - intros Hp. rewrite MTNaive_init_unfold. apply bind_Raise, Hp.
  - intros mhp h1 plugins' h2 Hp He Hb. rewrite MTNaive_init_unfold.
    rewrite (bind_Return _ _ _ _ _ Hp).
    rewrite (bind_Return _ _ _ _ _ He). exact Hb.
  - intros Hq. rewrite CWRStar_init_unfold. apply bind_Raise, Hq.
  - intros cwsp k1 plugins' k2 Hq He Hb. rewrite CWRStar_init_unfold.
    rewrite (bind_Return _ _ _ _ _ Hq).
    rewrite (bind_Return _ _ _ _ _ He). exact Hb.
Qed.

Lemma extend_not_None_keeps plugins p h plugins' h2 :
  plugins <> VNone ->
  extend plugins p h = Return plugins' h2 ->
  plugins' = plugins /\ length h2 = length h.
Proof.
  intros Hn. unfold extend, bind, list_append.
  destruct plugins as [| | | |l]; simpl; try discriminate; [congruence|].
  destruct (h !! l) as [[ps|cls attrs]|]; try discriminate.
  intros He. inversion He; subst. split; [reflexivity|apply length_insert].
Qed.

(** C9. An empty list is a list: [MTNaive] and [CWRStar] append the plugin
    they build to the caller's empty list, which becomes a one-element
    list, and hand that same reference to the base constructor without
    creating a list.  Only [None] makes a new list: for any other
    [plugins] the statement, when it succeeds, keeps the reference and
    allocates nothing, while for [None] it allocates one object. *)
Theorem empty_list_is_not_absent self model optimizer criterion slln nc
    ep tmb te tsmb dev cf kil h l mhp h1 cwsp k1 :
  h !! l = Some (ListObj []) ->
  MHP [model] [("classifier_field", cf); ("keep_initial_layer", kil)] h
  = Return mhp h1 ->
  h1 !! l = h !! l ->
  CWP [model; slln; nc] [] h = Return cwsp k1 ->
  k1 !! l = h !! l ->
  (MTNaive_init Base MHP self model optimizer criterion ep tmb te tsmb dev
     (VRef l) cf kil h
   = super_init Base self model criterion optimizer ep tmb te tsmb dev
       (VRef l) (<[l := ListObj [mhp]]> h1)
   /\ <[l := ListObj [mhp]]> h1 !! l = Some (ListObj [mhp])
   /\ length (<[l := ListObj [mhp]]> h1) = length h1)
  /\ (CWRStar_init Base CWP self model optimizer criterion slln nc ep tmb
        te tsmb dev (VRef l) h
      = super_init Base self model criterion optimizer ep tmb te tsmb dev
          (VRef l) (<[l := ListObj [cwsp]]> k1)
      /\ <[l := ListObj [cwsp]]> k1 !! l = Some (ListObj [cwsp])
      /\ length (<[l := ListObj [cwsp]]> k1) = length k1)
  /\ (forall plugins p h0 plugins' h2,
        extend plugins p h0 = Return plugins' h2 ->
        if is_None plugins
        then plugins = VNone /\ plugins' = VRef (length h0)
             /\ length h2 = S (length h0)
        else plugins <> VNone /\ plugins' = plugins
             /\ length h2 = length h0).
Proof.
  intros Hl Hp Hh1 Hq Hk1. rewrite Hl in Hh1, Hk1.
  split; [|split].
  - split; [|split].
    + rewrite MTNaive_init_unfold.
      rewrite (bind_Return _ _ _ _ _ Hp).
      rewrite (bind_Return _ _ _ _ _ (extend_list _ _ mhp _ Hh1)).
      reflexivity.
    + eapply lookup_grown_list, Hh1.
    + apply length_insert.
  - split; [|split].
    + rewrite CWRStar_init_unfold.
      rewrite (bind_Return _ _ _ _ _ Hq).
      rewrite (bind_Return _ _ _ _ _ (extend_list _ _ cwsp _ Hk1)).
      reflexivity.
    + eapply lookup_grown_list, Hk1.
    + apply length_insert.
  - intros plugins p h0 plugins' h2 He.
    destruct (is_None plugins) eqn:Hn.
    + destruct plugins; try discriminate Hn.
      rewrite extend_None in He. inversion He; subst.
      repeat split. rewrite length_app. simpl. lia.
    + assert (Hne : plugins <> VNone) by (intros ->; discriminate Hn).
      split; [exact Hne|]. eapply extend_not_None_keeps; eassumption.
Qed.

(** C10. The three constructors take [(model, optimizer, criterion)] as
    their leading parameters and pass [(model, criterion, optimizer)] as
    the leading positional arguments of the base constructor, optimizer and
    criterion exchanged; the evaluation protocol follows as the fourth
    positional argument, and [train_mb_size], [train_epochs],
    [test_mb_size], [device] and [plugins] go by keyword, each with the
    value bound to the parameter of that name ([plugins] after its
    extension in [MTNaive] and [CWRStar]). *)
Theorem base_positional_order_swapped self model optimizer criterion
    restN kwN vsN restM kwM vsM restC kwC vsC h :
  bind_args Naive_sig (model :: optimizer :: criterion :: restN) kwN
  = inr vsN ->
  bind_args MTNaive_sig (model :: optimizer :: criterion :: restM) kwM
  = inr vsM ->
  bind_args CWRStar_sig (model :: optimizer :: criterion :: restC) kwC
  = inr vsC ->
  (p_name <$> take 3 Naive_sig = ["model"; "optimizer"; "criterion"]
   /\ p_name <$> take 3 MTNaive_sig = ["model"; "optimizer"; "criterion"]
   /\ p_name <$> take 3 CWRStar_sig = ["model"; "optimizer"; "criterion"])
  /\ Naive_call Base self (model :: optimizer :: criterion :: restN) kwN h
     = Base self
         [model; criterion; optimizer;
          bound Naive_sig vsN "evaluation_protocol"]
         [("train_mb_size", bound Naive_sig vsN "train_mb_size");
          ("train_epochs", bound Naive_sig vsN "train_epochs");
          ("test_mb_size", bound Naive_sig vsN "test_mb_size");
          ("device", bound Naive_sig vsN "device");
          ("plugins", bound Naive_sig vsN "plugins")] h
  /\ MTNaive_call Base MHP self
       (model :: optimizer :: criterion :: restM) kwM h
     = (let! mhp := MHP [model]
                      [("classifier_field",
                        bound MTNaive_sig vsM "classifier_field");
                       ("keep_initial_layer",
                        bound MTNaive_sig vsM "keep_initial_layer")] in
        let! plugins' := extend (bound MTNaive_sig vsM "plugins") mhp in
        Base self
          [model; criterion; optimizer;
           bound MTNaive_sig vsM "evaluation_protocol"]
          [("train_mb_size", bound MTNaive_sig vsM "train_mb_size");
           ("train_epochs", bound MTNaive_sig vsM "train_epochs");
           ("test_mb_size", bound MTNaive_sig vsM "test_mb_size");
           ("device", bound MTNaive_sig vsM "device");
           ("plugins", plugins')]) h
  /\ CWRStar_call Base CWP self
       (model :: optimizer :: criterion :: restC) kwC h
     = (let! cwsp := CWP [model;
                          bound CWRStar_sig vsC "second_last_layer_name";
                          bound CWRStar_sig vsC "num_classes"] [] in
        let! plugins' := extend (bound CWRStar_sig vsC "plugins") cwsp in
        Base self
          [model; criterion; optimizer;
           bound CWRStar_sig vsC "evaluation_protocol"]
          [("train_mb_size", bound CWRStar_sig vsC "train_mb_size");
           ("train_epochs", bound CWRStar_sig vsC "train_epochs");
           ("test_mb_size", bound CWRStar_sig vsC "test_mb_size");
           ("device", bound CWRStar_sig vsC "device");
           ("plugins", plugins')]) h.
Proof.
  intros HN HM HC. split; [repeat split|]. split; [|split].
  - pose proof (bind_args_length _ _ _ _ HN) as Hlen.
    pose proof (bind_args_positional _ _ _ _ 0 _ HN eq_refl) as H0.
    pose proof (bind_args_positional _ _ _ _ 1 _ HN eq_refl) as H1.
    pose proof (bind_args_positional _ _ _ _ 2 _ HN eq_refl) as H2.
    rewrite (Naive_call_bound _ _ _ _ _ HN).
    split_args vsN Hlen. simpl in H0, H1, H2.
    inversion H0; inversion H1; inversion H2; subst. reflexivity.
  - pose proof (bind_args_length _ _ _ _ HM) as Hlen.
    pose proof (bind_args_positional _ _ _ _ 0 _ HM eq_refl) as H0.
    pose proof (bind_args_positional _ _ _ _ 1 _ HM eq_refl) as H1.
    pose proof (bind_args_positional _ _ _ _ 2 _ HM eq_refl) as H2.
    rewrite (MTNaive_call_bound _ _ _ _ _ HM).
    split_args vsM Hlen. simpl in H0, H1, H2.
    inversion H0; inversion H1; inversion H2; subst. reflexivity.
  - pose proof (bind_args_length _ _ _ _ HC) as Hlen.
    pose proof (bind_args_positional _ _ _ _ 0 _ HC eq_refl) as H0.
    pose proof (bind_args_positional _ _ _ _ 1 _ HC eq_refl) as H1.
    pose proof (bind_args_positional _ _ _ _ 2 _ HC eq_refl) as H2.
    rewrite (CWRStar_call_bound _ _ _ _ _ HC).
    split_args vsC Hlen. simpl in H0, H1, H2.
    inversion H0; inversion H1; inversion H2; subst. reflexivity.
Qed.

End Properties.

(** ** The statements on a concrete store

    Each statement above that has a premise is run here on [sample_heap]
    with the recording stand-ins for the imported classes. *)

Lemma Naive_forwards_arguments_witness :
  Naive_call recording_base s_self [s_model; s_optimizer; s_criterion]
    [("plugins", VRef s_plugins)] sample_heap
  = Return VNone
      (<[0 := Instance "Strategy"
                [("model", s_model); ("criterion", s_criterion);
                 ("optimizer", s_optimizer); ("evaluation_protocol", VNone);
                 ("train_mb_size", VInt 1); ("train_epochs", VInt 1);
                 ("test_mb_size", VNone); ("device", VNone);
                 ("plugins", VRef s_plugins)]]> sample_heap).
Proof.
  refine (eq_trans
            (proj1 (Naive_forwards_arguments recording_base s_self
                      [s_model; s_optimizer; s_criterion]
                      [("plugins", VRef s_plugins)]
                      [s_model; s_optimizer; s_criterion; VNone; VInt 1;
                       VInt 1; VNone; VNone; VRef s_plugins]
                      sample_heap eq_refl)) _).
  reflexivity.
Defined.

Lemma MTNaive_no_plugins_singleton_witness :
  exists h',
    MTNaive_init recording_base mh_stub s_self s_model s_optimizer
      s_criterion VNone (VInt 1) (VInt 1) VNone VNone VNone
      (VStr "classifier") (VBool false) sample_heap = Return VNone h'
    /\ h' !! 8 = Some (Instance "MultiHeadPlugin"
                         [("model", s_model);
                          ("classifier_field", VStr "classifier");
                          ("keep_initial_layer", VBool false)])
    /\ h' !! 9 = Some (ListObj [VRef 8]).
Proof.
  eexists. split; [|split].
  - etransitivity.
    + apply (MTNaive_no_plugins_singleton recording_base mh_stub s_self
               s_model s_optimizer s_criterion VNone (VInt 1) (VInt 1) VNone
               VNone (VStr "classifier") (VBool false) sample_heap _ _
               eq_refl).
    + reflexivity.
  - reflexivity.
  - reflexivity.
Defined.

Lemma MTNaive_appends_last_witness :
  exists h',
    MTNaive_init recording_base mh_stub s_self s_model s_optimizer
      s_criterion VNone (VInt 1) (VInt 1) VNone VNone (VRef s_plugins)
      (VStr "classifier") (VBool false) sample_heap = Return VNone h'
    /\ h' !! s_plugins = Some (ListObj [VRef 4; VRef 5; VRef 8])
    /\ length h' = 9.
Proof.
  eexists. split; [|split].
  - etransitivity.
    + apply (MTNaive_appends_last recording_base mh_stub s_self s_model
               s_optimizer s_criterion VNone (VInt 1) (VInt 1) VNone VNone
               (VStr "classifier") (VBool false) sample_heap s_plugins
               (VRef 4) (VRef 5) _ _ eq_refl eq_refl eq_refl).
    + reflexivity.
  - reflexivity.
  - reflexivity.
Defined.

Lemma CWRStar_no_plugins_singleton_witness :
  exists h',
    CWRStar_call recording_base cwr_stub s_self
      [s_model; s_optimizer; s_criterion; VStr "features"] [] sample_heap
    = Return VNone h'
    /\ h' !! 8 = Some (Instance "CWRStarPlugin"
                         [("model", s_model);
                          ("second_last_layer_name", VStr "features");
                          ("num_classes", VInt 50)])
    /\ h' !! 9 = Some (ListObj [VRef 8]).
Proof.
  eexists. split; [|split].
  - etransitivity.
    + apply (CWRStar_no_plugins_singleton recording_base cwr_stub s_self
               [s_model; s_optimizer; s_criterion; VStr "features"] []
               [s_model; s_optimizer; s_criterion; VStr "features"; VInt 50;
                VNone; VInt 1; VInt 1; VNone; VNone; VNone]
               sample_heap _ _ eq_refl eq_refl eq_refl).
    + reflexivity.
  - reflexivity.
  - reflexivity.
Defined.

Lemma caller_list_mutated_in_place_witness :
  (exists k3,
      CWRStar_init recording_base cwr_stub s_self s_model s_optimizer
        s_criterion (VStr "features") (VInt 50) VNone (VInt 1) (VInt 1)
        VNone VNone (VRef s_plugins) sample_heap = Return VNone k3
      /\ k3 !! s_plugins = Some (ListObj [VRef 4; VRef 5; VRef 8]))
  /\ (exists h3,
        MTNaive_init recording_base mh_stub s_self s_model s_optimizer
          s_criterion VNone (VInt 1) (VInt 1) VNone VNone (VRef s_plugins)
          (VStr "classifier") (VBool false) sample_heap = Return VNone h3
        /\ h3 !! s_plugins = Some (ListObj [VRef 4; VRef 5; VRef 8])).
Proof.
  pose proof (caller_list_mutated_in_place recording_base mh_stub cwr_stub
                s_self s_model s_optimizer s_criterion (VStr "features")
                (VInt 50) VNone (VInt 1) (VInt 1) VNone VNone
                (VStr "classifier") (VBool false) sample_heap s_plugins
                [VRef 4; VRef 5] _ _ _ _ _ _ _ _
                eq_refl eq_refl eq_refl eq_refl eq_refl
                eq_refl eq_refl eq_refl eq_refl)
    as [(Hc & Hcl & _) (Hm & Hml & _)].
  split; eexists; (split; [eassumption|assumption]).
Defined.

Lemma built_plugin_is_member_witness :
  (exists plugins' h2 items,
      MTNaive_init recording_base mh_stub s_self s_model s_optimizer
        s_criterion VNone (VInt 1) (VInt 1) VNone VNone (VRef s_plugins)
        (VStr "classifier") (VBool false) sample_heap
      = super_init recording_base s_self s_model s_criterion s_optimizer
          VNone (VInt 1) (VInt 1) VNone VNone plugins' h2
      /\ plugin_sequence h2 plugins' = Some items
      /\ In (VRef 8) items)
  /\ (exists plugins' k2 items,
        CWRStar_init recording_base cwr_stub s_self s_model s_optimizer
          s_criterion (VStr "features") (VInt 50) VNone (VInt 1) (VInt 1)
          VNone VNone (VRef s_plugins) sample_heap
        = super_init recording_base s_self s_model s_criterion s_optimizer
            VNone (VInt 1) (VInt 1) VNone VNone plugins' k2
        /\ plugin_sequence k2 plugins' = Some items
        /\ In (VRef 8) items).
Proof.
  destruct (built_plugin_is_member recording_base mh_stub cwr_stub
              s_self s_model s_optimizer s_criterion (VStr "features")
              (VInt 50) VNone (VInt 1) (VInt 1) VNone VNone (VRef s_plugins)
              (VStr "classifier") (VBool false) sample_heap _ _ _ _
              eq_refl eq_refl eq_refl eq_refl)
    as [(p1 & h2 & i1 & H1 & H2 & _ & H3) (p2 & k2 & i2 & K1 & K2 & _ & K3)].
  split; [exists p1, h2, i1|exists p2, k2, i2]; repeat split; assumption.
Defined.

Lemma constructor_defaults_witness :
  (exists h',
      CWRStar_call recording_base cwr_stub s_self
        [s_model; s_optimizer; s_criterion; VStr "features"] [] sample_heap
      = Return VNone h'
      /\ h' !! 8 = Some (Instance "CWRStarPlugin"
                           [("model", s_model);
                            ("second_last_layer_name", VStr "features");
                            ("num_classes", VInt 50)]))
  /\ (exists msg,
        CWRStar_call recording_base cwr_stub s_self
          [s_model; s_optimizer; s_criterion] [("num_classes", VInt 10)]
          sample_heap
        = Raise (TypeError msg) sample_heap).
Proof.
  split.
  - pose proof (constructor_defaults recording_base mh_stub cwr_stub s_self
                  CWRStar_sig
                  [s_model; s_optimizer; s_criterion; VStr "features"] []
                  4 (optional "num_classes" (VInt 50))
                  s_model s_optimizer s_criterion (VStr "features")
                  sample_heap
                  (or_intror (or_intror (or_introl eq_refl)))
                  eq_refl (le_n 4) eq_refl)
      as (_ & _ & _ & _ & _ & _ & Hdef & _).
    simpl in Hdef.
    destruct (Hdef [s_model; s_optimizer; s_criterion; VStr "features";
                    VInt 50; VNone; VInt 1; VInt 1; VNone; VNone; VNone]
                eq_refl) as (_ & _ & _ & Hcall).
    eexists. split.
    + etransitivity; [exact (Hcall eq_refl)|reflexivity].
    + reflexivity.
  - pose proof (constructor_defaults recording_base mh_stub cwr_stub s_self
                  CWRStar_sig
                  [s_model; s_optimizer; s_criterion]
                  [("num_classes", VInt 10)]
                  3 (required "second_last_layer_name")
                  s_model s_optimizer s_criterion (VStr "features")
                  sample_heap
                  (or_intror (or_intror (or_introl eq_refl)))
                  eq_refl (le_n 3) eq_refl)
      as (_ & _ & _ & _ & _ & _ & Hreq & _).
    simpl in Hreq. destruct Hreq as (_ & _ & Hcall).
    exact (Hcall eq_refl).
Defined.

Lemma errors_propagate_unchanged_witness :
  MTNaive_init recording_base (failing (Exn "AttributeError" "classifier"))
    s_self s_model s_optimizer s_criterion VNone (VInt 1) (VInt 1) VNone
    VNone (VRef s_plugins) (VStr "classifier") (VBool false) sample_heap
  = Raise (Exn "AttributeError" "classifier") sample_heap
  /\ exists h',
      CWRStar_init (failing_base (Exn "ValueError" "device")) cwr_stub
        s_self s_model s_optimizer s_criterion (VStr "features") (VInt 50)
        VNone (VInt 1) (VInt 1) VNone VNone (VRef s_plugins) sample_heap
      = Raise (Exn "ValueError" "device") h'
      /\ h' !! s_plugins = Some (ListObj [VRef 4; VRef 5; VRef 8]).
Proof.
  split.
  - apply (proj1 (proj2
             (errors_propagate_unchanged recording_base
                (failing (Exn "AttributeError" "classifier")) cwr_stub
                s_self s_model s_optimizer s_criterion (VStr "features")
                (VInt 50) VNone (VInt 1) (VInt 1) VNone VNone
                (VRef s_plugins) (VStr "classifier") (VBool false)
                sample_heap (Exn "AttributeError" "classifier")
                sample_heap))).
    reflexivity.
  - eexists. split.
    + eapply (proj2 (proj2 (proj2 (proj2
               (errors_propagate_unchanged
                  (failing_base (Exn "ValueError" "device")) mh_stub
                  cwr_stub
                  s_self s_model s_optimizer s_criterion (VStr "features")
                  (VInt 50) VNone (VInt 1) (VInt 1) VNone VNone
                  (VRef s_plugins) (VStr "classifier") (VBool false)
                  sample_heap (Exn "ValueError" "device") _))))).
      * reflexivity.
      * reflexivity.
      * reflexivity.
    + reflexivity.
Defined.

Lemma empty_list_is_not_absent_witness :
  (exists h',
      MTNaive_init recording_base mh_stub s_self s_model s_optimizer
        s_criterion VNone (VInt 1) (VInt 1) VNone VNone (VRef s_empty)
        (VStr "classifier") (VBool false) sample_heap = Return VNone h'
      /\ h' !! s_empty = Some (ListObj [VRef 8]) /\ length h' = 9)
  /\ (exists k',
        CWRStar_init recording_base cwr_stub s_self s_model s_optimizer
          s_criterion (VStr "features") (VInt 50) VNone (VInt 1) (VInt 1)
          VNone VNone (VRef s_empty) sample_heap = Return VNone k'
        /\ k' !! s_empty = Some (ListObj [VRef 8]) /\ length k' = 9).
Proof.
  pose proof (empty_list_is_not_absent recording_base mh_stub cwr_stub
                s_self s_model s_optimizer s_criterion (VStr "features")
                (VInt 50) VNone (VInt 1) (VInt 1) VNone VNone
                (VStr "classifier") (VBool false) sample_heap s_empty
                _ _ _ _ eq_refl eq_refl eq_refl eq_refl eq_refl)
    as ((Hm & _ & _) & (Hc & _ & _) & _).
  split; eexists; (split; [etransitivity; [eassumption|reflexivity]|]);
    split; reflexivity.
Defined.

Lemma base_positional_order_swapped_witness :
  CWRStar_call recording_base cwr_stub s_self
    [s_model; s_optimizer; s_criterion; VStr "features"] [] sample_heap
  = Return VNone
      (<[0 := Instance "Strategy"
                [("model", s_model); ("criterion", s_criterion);
                 ("optimizer", s_optimizer); ("evaluation_protocol", VNone);
                 ("train_mb_size", VInt 1); ("train_epochs", VInt 1);
                 ("test_mb_size", VNone); ("device", VNone);
                 ("plugins", VRef 9)]]>
         (sample_heap
          ++ [Instance "CWRStarPlugin"
                [("model", s_model);
                 ("second_last_layer_name", VStr "features");
                 ("num_classes", VInt 50)];
              ListObj [VRef 8]])).
Proof.
  etransitivity.
  - exact (proj2 (proj2 (proj2
             (base_positional_order_swapped recording_base mh_stub cwr_stub
                s_self s_model s_optimizer s_criterion
                [] [] [s_model; s_optimizer; s_criterion; VNone; VInt 1;
                       VInt 1; VNone; VNone; VNone]
                [] [] [s_model; s_optimizer; s_criterion; VNone; VInt 1;
                       VInt 1; VNone; VNone; VNone; VStr "classifier";
                       VBool false]
                [VStr "features"] []
                [s_model; s_optimizer; s_criterion; VStr "features"; VInt 50;
                 VNone; VInt 1; VInt 1; VNone; VNone; VNone]
                sample_heap eq_refl eq_refl eq_refl)))).
  - reflexivity.
Defined.

(** ** Argument binding: keywords, duplicates and arity *)

Lemma kw_get_remove_ne (n n' : string) (kw : kwargs) :
  n <> n' -> kw_get n (kw_remove n' kw) = kw_get n kw.
Proof.
  intros Hne. induction kw as [|[k v] kw IH]; simpl; [reflexivity|].
  destruct (String.eqb n' k) eqn:Hn'.
  - apply String.eqb_eq in Hn'. subst k.
    destruct (String.eqb n n') eqn:Hn; [|exact IH].
    apply String.eqb_eq in Hn. contradiction.
  - simpl. destruct (String.eqb n k); [reflexivity|exact IH].
Qed.

Lemma bind_args_keyword (sig : list param) :
  forall pos kw vs i p v,
    NoDup (param_names sig) ->
    bind_args sig pos kw = inr vs ->
    sig !! i = Some p -> length pos <= i -> kw_get (p_name p) kw = Some v ->
    vs !! i = Some v.
Proof.
  induction sig as [|p0 sig IH]; intros pos kw vs i p v Hnd; simpl.
  - intros _ Hi; destruct i; discriminate Hi.
  - apply NoDup_cons in Hnd as [Hnotin Hnd].
    destruct pos as [|v0 pos]; intros Hb Hi Hlen Hkw.
    + destruct i as [|i]; simpl in Hi.
      * inversion Hi; subst p0. rewrite Hkw in Hb.
        destruct (bind_args sig [] _); inversion Hb; subst. reflexivity.
      * assert (Hne : p_name p <> p_name p0).
        { intros Heq. apply Hnotin. rewrite <- Heq.
          apply list_elem_of_fmap. exists p. split; [reflexivity|].
          eapply list_elem_of_lookup_2, Hi. }
        assert (Hkw' : kw_get (p_name p) (kw_remove (p_name p0) kw) = Some v)
          by (rewrite kw_get_remove_ne; assumption).
        destruct (kw_get (p_name p0) kw), (p_default p0);
          try discriminate;
          destruct (bind_args sig [] (kw_remove (p_name p0) kw)) eqn:Hrec;
          inversion Hb; subst; simpl;
          (eapply IH; [exact Hnd|eassumption|eassumption|simpl; lia|
                       exact Hkw']).
    + destruct i as [|i]; simpl in Hlen; [lia|]. simpl in Hi.
      destruct (kw_get (p_name p0) kw); [discriminate|].
      destruct (bind_args sig pos kw) eqn:Hrec; inversion Hb; subst; simpl.
      eapply IH; [exact Hnd|eassumption|eassumption|lia|assumption].
Qed.

Lemma bind_args_duplicate (sig : list param) :
  forall pos kw i p v,
    sig !! i = Some p -> i < length pos -> kw_get (p_name p) kw = Some v ->
    exists msg, bind_args sig pos kw = inl (TypeError msg).
Proof.
  induction sig as [|p0 sig IH]; intros pos kw i p v; simpl.
  - intros Hi; destruct i; discriminate Hi.
  - destruct pos as [|v0 pos]; intros Hi Hlen Hkw; simpl in Hlen; [lia|].
    destruct i as [|i]; simpl in Hi.
    + inversion Hi; subst p0. rewrite Hkw. eauto.
    + destruct (kw_get (p_name p0) kw); [eauto|].
      destruct (IH pos kw i p v Hi ltac:(lia) Hkw) as [msg ->]. eauto.
Qed.

Lemma bind_args_unknown_keyword (sig : list param) :
  forall pos kw k v,
    ~ In k (param_names sig) -> kw_get k kw = Some v ->
    exists msg, bind_args sig pos kw = inl (TypeError msg).
Proof.
  induction sig as [|p0 sig IH]; intros pos kw k v Hnotin Hkw; simpl.
  - destruct pos; [|eauto]. destruct kw; [discriminate Hkw|eauto].
  - assert (Hne : k <> p_name p0) by (intros ->; apply Hnotin; left; reflexivity).
    assert (Hrest : ~ In k (param_names sig))
      by (intros Hin; apply Hnotin; right; exact Hin).
    destruct pos as [|v0 pos].
    + assert (Hkw' : kw_get k (kw_remove (p_name p0) kw) = Some v)
        by (rewrite kw_get_remove_ne; assumption).
      destruct (IH [] _ k v Hrest Hkw') as [msg Hrec].
      destruct (kw_get (p_name p0) kw), (p_default p0);
        rewrite ?Hrec; eauto.
    + destruct (kw_get (p_name p0) kw); [eauto|].
      destruct (IH pos kw k v Hrest Hkw) as [msg ->]. eauto.
Qed.

Lemma n_required_all_defaults (sig : list param) :
  forallb has_default sig = true -> n_required sig = 0.
Proof.
  induction sig as [|p sig IH]; simpl; [reflexivity|].
  destruct (has_default p); simpl; [exact IH|discriminate].
Qed.

Lemma defaults_last_all_defaults (sig : list param) :
  forallb has_default sig = true -> defaults_last sig = true.
Proof.
  induction sig as [|p sig IH]; simpl; [reflexivity|].
  destruct (has_default p); simpl; [tauto|discriminate].
Qed.

Lemma bind_args_positional_arity (sig : list param) :
  forall pos,
    defaults_last sig = true ->
    (exists vs, bind_args sig pos [] = inr vs)
    <-> n_required sig <= length pos <= length sig.
Proof.
  induction sig as [|p sig IH]; intros pos Hdl; simpl.
  - destruct pos; simpl; split.
    + intros _. lia.
    + intros _. eauto.
    + intros [vs Hvs]. discriminate.
    + lia.
  - simpl in Hdl. unfold has_default in *.
    destruct pos as [|v pos]; simpl.
    + destruct (p_default p) as [d|]; simpl.
      * pose proof (n_required_all_defaults sig Hdl) as Hz.
        specialize (IH [] (defaults_last_all_defaults sig Hdl)).
        simpl in IH. split; [intros _; lia|]. intros _.
        destruct (proj2 IH ltac:(lia)) as [vs ->]. eauto.
      * split; [intros [vs Hvs]; discriminate|lia].
    + specialize (IH pos).
      destruct (p_default p) as [d|]; simpl.
      * pose proof (n_required_all_defaults sig Hdl) as Hz.
        specialize (IH (defaults_last_all_defaults sig Hdl)).
        split.
        -- intros [vs Hvs].
           destruct (bind_args sig pos []) eqn:Hrec; [discriminate|].
           assert (n_required sig <= length pos <= length sig)
             by (apply IH; eauto). lia.
        -- intros Hlen. destruct (proj2 IH ltac:(lia)) as [vs ->]. eauto.
      * specialize (IH Hdl). split.
        -- intros [vs Hvs].
           destruct (bind_args sig pos []) eqn:Hrec; [discriminate|].
           assert (n_required sig <= length pos <= length sig)
             by (apply IH; eauto). lia.
        -- intros Hlen. destruct (proj2 IH ltac:(lia)) as [vs ->]. eauto.
Qed.

(** ** Further properties of the constructors *)

Lemma extend_frame (plugins p : value) (h : heap) plugins' h2 :
  extend plugins p h = Return plugins' h2 ->
  length h <= length h2
  /\ (forall l', l' < length h -> VRef l' <> plugins -> h2 !! l' = h !! l')
  /\ (plugins = VNone -> plugins' = VRef (length h) /\ h !! length h = None).
Proof.
  unfold extend, bind, list_append.
  destruct plugins as [| | | |l]; simpl; try discriminate.
  - intros He. inversion He; subst. rewrite length_app. simpl.
    split; [lia|]. split.
    + intros l' Hl' _. apply lookup_app_l. exact Hl'.
    + intros _. split; [reflexivity|]. apply lookup_ge_None. lia.
  - destruct (h !! l) as [[ps|cls attrs]|] eqn:Hl; try discriminate.
    intros He. inversion He; subst. rewrite length_insert.
    split; [lia|]. split; [|discriminate].
    intros l' _ Hne. apply list_lookup_insert_ne. congruence.
Qed.

Lemma extend_plugins_arg (plugins p : value) (h : heap) :
  is_plugins_arg h plugins = true ->
  exists plugins' h2, extend plugins p h = Return plugins' h2.
Proof.
  intros Hv. destruct (extend_member plugins p h Hv)
    as (plugins' & h2 & _ & He & _). eauto.
Qed.

(** X1. Between the plugin constructor and the base constructor, [MTNaive]
    and [CWRStar] change no object of the store other than the caller's
    list: every other object is handed to the base constructor as the
    plugin constructor left it, nothing is removed, and with [plugins=None]
    the list handed on sits at a location that held no object before. *)
Theorem wrappers_touch_only_the_callers_list
    (Base : value -> callable) (MHP CWP : callable)
    (self model optimizer criterion slln nc ep tmb te tsmb dev plugins cf
       kil : value) (h : heap) mhp h1 cwsp k1 :
  MHP [model] [("classifier_field", cf); ("keep_initial_layer", kil)] h
  = Return mhp h1 ->
  is_plugins_arg h1 plugins = true ->
  CWP [model; slln; nc] [] h = Return cwsp k1 ->
  is_plugins_arg k1 plugins = true ->
  (exists plugins' h2,
      MTNaive_init Base MHP self model optimizer criterion ep tmb te tsmb
        dev plugins cf kil h
      = super_init Base self model criterion optimizer ep tmb te tsmb dev
          plugins' h2
      /\ length h1 <= length h2
      /\ (forall l', l' < length h1 -> VRef l' <> plugins ->
                     h2 !! l' = h1 !! l')
      /\ (plugins = VNone ->
          plugins' = VRef (length h1) /\ h1 !! length h1 = None))
  /\ (exists plugins' k2,
        CWRStar_init Base CWP self model optimizer criterion slln nc ep tmb
          te tsmb dev plugins h
        = super_init Base self model criterion optimizer ep tmb te tsmb dev
            plugins' k2
        /\ length k1 <= length k2
        /\ (forall l', l' < length k1 -> VRef l' <> plugins ->
                       k2 !! l' = k1 !! l')
        /\ (plugins = VNone ->
            plugins' = VRef (length k1) /\ k1 !! length k1 = None)).
Proof.
  intros Hp Hv1 Hq Hv2. split.
  - destruct (extend_plugins_arg plugins mhp h1 Hv1) as (plugins' & h2 & He).
    exists plugins', h2. split; [|exact (extend_frame _ _ _ _ _ He)].
    rewrite MTNaive_init_unfold.
    rewrite (bind_Return _ _ _ _ _ Hp).
    rewrite (bind_Return _ _ _ _ _ He). reflexivity.
  - destruct (extend_plugins_arg plugins cwsp k1 Hv2) as (plugins' & k2 & He).
    exists plugins', k2. split; [|exact (extend_frame _ _ _ _ _ He)].
    rewrite CWRStar_init_unfold.
    rewrite (bind_Return _ _ _ _ _ Hq).
    rewrite (bind_Return _ _ _ _ _ He). reflexivity.
Qed.

Lemma MTNaive_grows_list (Base : value -> callable) (MHP : callable)
    (self model optimizer criterion ep tmb te tsmb dev cf kil : value)
    (l : loc) (ps : list value) (h : heap) r h' :
  (forall pos kw, keeps_list l (MHP pos kw)) ->
  (forall pos kw, keeps_list l (Base self pos kw)) ->
  h !! l = Some (ListObj ps) ->
  MTNaive_init Base MHP self model optimizer criterion ep tmb te tsmb dev
    (VRef l) cf kil h = Return r h' ->
  exists mhp hm,
    MHP [model] [("classifier_field", cf); ("keep_initial_layer", kil)] h
    = Return mhp hm
    /\ h' !! l = Some (ListObj (ps ++ [mhp])).
Proof.
  intros Hkp Hkb Hl. rewrite MTNaive_init_unfold.
  destruct (MHP [model] [("classifier_field", cf);
                         ("keep_initial_layer", kil)] h)
    as [mhp hm|e hm] eqn:Hp.
  - rewrite (bind_Return _ _ _ _ _ Hp).
    pose proof (Hkp _ _ _ _ _ _ Hl Hp) as Hlm.
    rewrite (bind_Return _ _ _ _ _ (extend_list _ _ mhp _ Hlm)).
    intros Hb. exists mhp, hm. split; [reflexivity|].
    eapply Hkb; [|exact Hb]. eapply lookup_grown_list, Hlm.
  - rewrite (bind_Raise _ _ _ _ _ Hp). discriminate.
Qed.

Lemma CWRStar_grows_list (Base : value -> callable) (CWP : callable)
    (self model optimizer criterion slln nc ep tmb te tsmb dev : value)
    (l : loc) (ps : list value) (h : heap) r h' :
  (forall pos kw, keeps_list l (CWP pos kw)) ->
  (forall pos kw, keeps_list l (Base self pos kw)) ->
  h !! l = Some (ListObj ps) ->
  CWRStar_init Base CWP self model optimizer criterion slln nc ep tmb te
    tsmb dev (VRef l) h = Return r h' ->
  exists cwsp hc,
    CWP [model; slln; nc] [] h = Return cwsp hc
    /\ h' !! l = Some (ListObj (ps ++ [cwsp])).
Proof.
  intros Hkp Hkb Hl. rewrite CWRStar_init_unfold.
  destruct (CWP [model; slln; nc] [] h) as [cwsp hc|e hc] eqn:Hp.
  - rewrite (bind_Return _ _ _ _ _ Hp).
    pose proof (Hkp _ _ _ _ _ _ Hl Hp) as Hlm.
    rewrite (bind_Return _ _ _ _ _ (extend_list _ _ cwsp _ Hlm)).
    intros Hb. exists cwsp, hc. split; [reflexivity|].
    eapply Hkb; [|exact Hb]. eapply lookup_grown_list, Hlm.
  - rewrite (bind_Raise _ _ _ _ _ Hp). discriminate.
Qed.

(** X2. A list shared between constructions accumulates: after an
    [MTNaive] and then a [CWRStar] were built from the same caller list
    [ps], that list is [ps] followed by the [MultiHeadPlugin] and then the
    [CWRStarPlugin], provided the imported constructors leave the list as
    they find it. *)
Theorem shared_list_accumulates
    (Base : value -> callable) (MHP CWP : callable)
    (self1 self2 model optimizer criterion slln nc ep tmb te tsmb dev cf
       kil : value) (l : loc) (ps : list value) (h : heap) r1 h1 r2 h2 :
  (forall pos kw, keeps_list l (MHP pos kw)) ->
  (forall pos kw, keeps_list l (CWP pos kw)) ->
  (forall self pos kw, keeps_list l (Base self pos kw)) ->
  h !! l = Some (ListObj ps) ->
  MTNaive_init Base MHP self1 model optimizer criterion ep tmb te tsmb dev
    (VRef l) cf kil h = Return r1 h1 ->
  CWRStar_init Base CWP self2 model optimizer criterion slln nc ep tmb te
    tsmb dev (VRef l) h1 = Return r2 h2 ->
  exists mhp hm cwsp hc,
    MHP [model] [("classifier_field", cf); ("keep_initial_layer", kil)] h
    = Return mhp hm
    /\ CWP [model; slln; nc] [] h1 = Return cwsp hc
    /\ h1 !! l = Some (ListObj (ps ++ [mhp]))
    /\ h2 !! l = Some (ListObj (ps ++ [mhp; cwsp])).
Proof.
  intros Hkm Hkc Hkb Hl H1 H2.
  destruct (MTNaive_grows_list _ _ _ _ _ _ _ _ _ _ _ _ _ _ _ _ _ _
              Hkm (Hkb self1) Hl H1) as (mhp & hm & Hp & Hl1).
  destruct (CWRStar_grows_list _ _ _ _ _ _ _ _ _ _ _ _ _ _ _ _ _ _
              Hkc (Hkb self2) Hl1 H2) as (cwsp & hc & Hq & Hl2).
  exists mhp, hm, cwsp, hc. repeat split; try assumption.
  rewrite Hl2, <- app_assoc. reflexivity.
Qed.

(** X3. Called with positional arguments only, [Naive] binds its
    parameters and runs on them exactly when it is given 3 to 9 arguments,
    [MTNaive] when given 3 to 11 and [CWRStar] when given 4 to 11; with
    any other number of arguments the call raises a [TypeError] on the
    store as it was. *)
Theorem positional_arity
    (Base : value -> callable) (MHP CWP : callable)
    (self : value) (pos : list value) (h : heap) :
  ((3 <= length pos <= 9 ->
    exists vs,
      bind_args Naive_sig pos [] = inr vs
      /\ Naive_call Base self pos [] h = expected_Naive Base self vs h)
   /\ (~ (3 <= length pos <= 9) ->
       exists msg, Naive_call Base self pos [] h = Raise (TypeError msg) h))
  /\ ((3 <= length pos <= 11 ->
       exists vs,
         bind_args MTNaive_sig pos [] = inr vs
         /\ MTNaive_call Base MHP self pos [] h
            = expected_MTNaive Base MHP self vs h)
      /\ (~ (3 <= length pos <= 11) ->
          exists msg,
            MTNaive_call Base MHP self pos [] h = Raise (TypeError msg) h))
  /\ ((4 <= length pos <= 11 ->
       exists vs,
         bind_args CWRStar_sig pos [] = inr vs
         /\ CWRStar_call Base CWP self pos [] h
            = expected_CWRStar Base CWP self vs h)
      /\ (~ (4 <= length pos <= 11) ->
          exists msg,
            CWRStar_call Base CWP self pos [] h = Raise (TypeError msg) h)).
Proof.
  pose proof (bind_args_positional_arity Naive_sig pos eq_refl) as HN.
  pose proof (bind_args_positional_arity MTNaive_sig pos eq_refl) as HM.
  pose proof (bind_args_positional_arity CWRStar_sig pos eq_refl) as HC.
  simpl in HN, HM, HC.
  split; [|split]; split.
  - intros Hlen. destruct (proj2 HN Hlen) as [vs Hb].
    exists vs. split; [exact Hb|]. apply Naive_call_bound, Hb.
  - intros Hlen. destruct (bind_args Naive_sig pos []) as [e|vs] eqn:Hb.
    + destruct (bind_args_error _ _ _ _ Hb) as [msg ->].
      exists msg. apply Naive_call_unbound, Hb.
    + exfalso. apply Hlen, HN. eauto.
  - intros Hlen. destruct (proj2 HM Hlen) as [vs Hb].
    exists vs. split; [exact Hb|]. apply MTNaive_call_bound, Hb.
  - intros Hlen. destruct (bind_args MTNaive_sig pos []) as [e|vs] eqn:Hb.
    + destruct (bind_args_error _ _ _ _ Hb) as [msg ->].
      exists msg. apply MTNaive_call_unbound, Hb.
    + exfalso. apply Hlen, HM. eauto.
  - intros Hlen. destruct (proj2 HC Hlen) as [vs Hb].
    exists vs. split; [exact Hb|]. apply CWRStar_call_bound, Hb.
  - intros Hlen. destruct (bind_args CWRStar_sig pos []) as [e|vs] eqn:Hb.
    + destruct (bind_args_error _ _ _ _ Hb) as [msg ->].
      exists msg. apply CWRStar_call_unbound, Hb.
    + exfalso. apply Hlen, HC. eauto.
Qed.

(** X4. A keyword that names no parameter of the constructor makes the
    call fail with a [TypeError] before anything is built: the store is
    unchanged and the outcome does not depend on the imported
    constructors.  So [Naive] takes none of [classifier_field],
    [keep_initial_layer], [second_last_layer_name] and [num_classes]. *)
Theorem unknown_keyword_rejected
    (Base : value -> callable) (MHP CWP : callable)
    (self : value) (pos : list value) (kw : kwargs) (h : heap) k v :
  kw_get k kw = Some v ->
  (~ In k (param_names Naive_sig) ->
   exists msg, Naive_call Base self pos kw h = Raise (TypeError msg) h)
  /\ (~ In k (param_names MTNaive_sig) ->
      exists msg,
        MTNaive_call Base MHP self pos kw h = Raise (TypeError msg) h)
  /\ (~ In k (param_names CWRStar_sig) ->
      exists msg,
        CWRStar_call Base CWP self pos kw h = Raise (TypeError msg) h)
  /\ ~ In "classifier_field" (param_names Naive_sig)
  /\ ~ In "keep_initial_layer" (param_names Naive_sig)
  /\ ~ In "second_last_layer_name" (param_names Naive_sig)
  /\ ~ In "num_classes" (param_names Naive_sig).
Proof.
  intros Hkw. split; [|split; [|split]].
  - intros Hk.
    destruct (bind_args_unknown_keyword Naive_sig pos kw k v Hk Hkw)
      as [msg Hb].
    exists msg. unfold Naive_call. rewrite Hb. reflexivity.
  - intros Hk.
    destruct (bind_args_unknown_keyword MTNaive_sig pos kw k v Hk Hkw)
      as [msg Hb].
    exists msg. unfold MTNaive_call. rewrite Hb. reflexivity.
  - intros Hk.
    destruct (bind_args_unknown_keyword CWRStar_sig pos kw k v Hk Hkw)
      as [msg Hb].
    exists msg. unfold CWRStar_call. rewrite Hb. reflexivity.
  - repeat split; simpl; intuition discriminate.
Qed.

(** X5. An argument given by keyword, for a parameter that no positional
    argument fills, is the value bound to that parameter, in each of the
    three constructors. *)
Theorem keyword_argument_bound (sig : list param) (pos : list value)
    (kw : kwargs) (vs : list value) (i : nat) (p : param) (v : value) :
  In sig [Naive_sig; MTNaive_sig; CWRStar_sig] ->
  bind_args sig pos kw = inr vs ->
  sig !! i = Some p -> length pos <= i -> kw_get (p_name p) kw = Some v ->
  vs !! i = Some v /\ bound sig vs (p_name p) = v.
Proof.
  intros Hsig Hb Hi Hlen Hkw.
  pose proof (signature_names_distinct sig Hsig) as Hnd.
  pose proof (bind_args_keyword sig pos kw vs i p v Hnd Hb Hi Hlen Hkw) as Hv.
  split; [exact Hv|]. eapply bound_lookup; eassumption.
Qed.

(** X6. An argument given both by position and by keyword makes the call
    fail with a [TypeError] before anything is built, the store
    unchanged. *)
Theorem duplicate_argument_rejected
    (Base : value -> callable) (MHP CWP : callable)
    (self : value) (pos : list value) (kw : kwargs) (h : heap) i v :
  i < length pos ->
  (forall p, Naive_sig !! i = Some p -> kw_get (p_name p) kw = Some v ->
     exists msg, Naive_call Base self pos kw h = Raise (TypeError msg) h)
  /\ (forall p, MTNaive_sig !! i = Some p -> kw_get (p_name p) kw = Some v ->
        exists msg,
          MTNaive_call Base MHP self pos kw h = Raise (TypeError msg) h)
  /\ (forall p, CWRStar_sig !! i = Some p -> kw_get (p_name p) kw = Some v ->
        exists msg,
          CWRStar_call Base CWP self pos kw h = Raise (TypeError msg) h).
Proof.
  intros Hi. split; [|split]; intros p Hp Hkw.
  - destruct (bind_args_duplicate Naive_sig pos kw i p v Hp Hi Hkw)
      as [msg Hb].
    exists msg. unfold Naive_call. rewrite Hb. reflexivity.
  - destruct (bind_args_duplicate MTNaive_sig pos kw i p v Hp Hi Hkw)
      as [msg Hb].
    exists msg. unfold MTNaive_call. rewrite Hb. reflexivity.
  - destruct (bind_args_duplicate CWRStar_sig pos kw i p v Hp Hi Hkw)
      as [msg Hb].
    exists msg. unfold CWRStar_call. rewrite Hb. reflexivity.
Qed.

(** X7. A [plugins] argument that is a bool, an int or a str: [MTNaive]
    and [CWRStar] first build their plugin and then fail with an
    [AttributeError] at the [append], on the store the plugin constructor
    left and whatever the base constructor is, which is never reached. *)
Theorem scalar_plugins_argument_raises
    (Base : value -> callable) (MHP CWP : callable)
    (self model optimizer criterion slln nc ep tmb te tsmb dev plugins cf
       kil : value) (h : heap) mhp h1 cwsp k1 :
  is_scalar plugins = true ->
  MHP [model] [("classifier_field", cf); ("keep_initial_layer", kil)] h
  = Return mhp h1 ->
  CWP [model; slln; nc] [] h = Return cwsp k1 ->
  (exists msg,
      MTNaive_init Base MHP self model optimizer criterion ep tmb te tsmb
        dev plugins cf kil h = Raise (AttributeError msg) h1)
  /\ (exists msg,
        CWRStar_init Base CWP self model optimizer criterion slln nc ep tmb
          te tsmb dev plugins h = Raise (AttributeError msg) k1).
Proof.
  intros Hs Hp Hq.
  assert (He : forall p h0,
             extend plugins p h0 = Raise (AttributeError "append") h0).
  { intros p h0. apply extend_not_list.
    - intros ->. discriminate Hs.
    - intros l ps ->. discriminate Hs. }
  split; exists "append".
  - rewrite MTNaive_init_unfold.
    rewrite (bind_Return _ _ _ _ _ Hp).
    apply bind_Raise, He.
  - rewrite CWRStar_init_unfold.
    rewrite (bind_Return _ _ _ _ _ Hq).
    apply bind_Raise, He.
Qed.

(** X8. [MTNaive] called without [classifier_field] and
    [keep_initial_layer] builds its [MultiHeadPlugin] from the model with
    ["classifier"] and [False], then extends the bound [plugins] and calls
    the base constructor with the bound arguments. *)
Theorem MTNaive_default_head_plugin
    (Base : value -> callable) (MHP : callable)
    (self : value) (pos : list value) (kw : kwargs) (vs : list value)
    (h : heap) :
  bind_args MTNaive_sig pos kw = inr vs ->
  length pos <= 9 ->
  kw_get "classifier_field" kw = None ->
  kw_get "keep_initial_layer" kw = None ->
  MTNaive_call Base MHP self pos kw h
  = (let! mhp := MHP [bound MTNaive_sig vs "model"]
                   [("classifier_field", VStr "classifier");
                    ("keep_initial_layer", VBool false)] in
     let! plugins' := extend (bound MTNaive_sig vs "plugins") mhp in
     super_init Base self
       (bound MTNaive_sig vs "model") (bound MTNaive_sig vs "criterion")
       (bound MTNaive_sig vs "optimizer")
       (bound MTNaive_sig vs "evaluation_protocol")
       (bound MTNaive_sig vs "train_mb_size")
       (bound MTNaive_sig vs "train_epochs")
       (bound MTNaive_sig vs "test_mb_size")
       (bound MTNaive_sig vs "device") plugins') h.
Proof.
  intros Hb Hlen Hcf Hkil.
  destruct (bind_args_omitted MTNaive_sig pos kw vs 9
              (optional "classifier_field" (VStr "classifier"))
              Hb eq_refl Hlen Hcf) as (d1 & Hd1 & Hv1).
  destruct (bind_args_omitted MTNaive_sig pos kw vs 10
              (optional "keep_initial_layer" (VBool false))
              Hb eq_refl ltac:(lia) Hkil) as (d2 & Hd2 & Hv2).
  inversion Hd1; inversion Hd2; subst d1 d2.
  unfold MTNaive_call. rewrite Hb.
  pose proof (bind_args_length _ _ _ _ Hb) as Hl. simpl in Hl.
  repeat (destruct vs as [|? vs]; simpl in Hl; try discriminate Hl).
  simpl in Hv1, Hv2. inversion Hv1; inversion Hv2; subst.
  reflexivity.
Qed.

(** ** The further properties on a concrete store *)

Lemma recording_plugin_keeps cls names l pos kw :
  keeps_list l (recording_plugin cls names pos kw).
Proof.
  intros h items v h' Hl Hr. unfold recording_plugin in Hr.
  inversion Hr; subst. apply lookup_app_l_Some. exact Hl.
Qed.

Lemma recording_base_keeps l self pos kw :
  keeps_list l (recording_base self pos kw).
Proof.
  intros h items v h' Hl. unfold recording_base.
  destruct self as [| | | |l0]; try discriminate.
  destruct (h !! l0) as [[ps|cls attrs]|] eqn:Hl0; try discriminate.
  intros Hr. inversion Hr; subst.
  rewrite list_lookup_insert_ne; [exact Hl|]. congruence.
Qed.

Lemma wrappers_touch_only_the_callers_list_witness :
  exists plugins' h2,
    MTNaive_init recording_base mh_stub s_self s_model s_optimizer
      s_criterion VNone (VInt 1) (VInt 1) VNone VNone (VRef s_plugins)
      (VStr "classifier") (VBool false) sample_heap
    = super_init recording_base s_self s_model s_criterion s_optimizer
        VNone (VInt 1) (VInt 1) VNone VNone plugins' h2
    /\ h2 !! s_empty = Some (ListObj [])
    /\ h2 !! 4 = Some (Instance "StrategyPlugin" []).
Proof.
  destruct (wrappers_touch_only_the_callers_list recording_base mh_stub
              cwr_stub s_self s_model s_optimizer s_criterion
              (VStr "features") (VInt 50) VNone (VInt 1) (VInt 1) VNone
              VNone (VRef s_plugins) (VStr "classifier") (VBool false)
              sample_heap _ _ _ _ eq_refl eq_refl eq_refl eq_refl)
    as [(plugins' & h2 & Hcall & _ & Hframe & _) _].
  exists plugins', h2. split; [|split].
  - exact Hcall.
  - etransitivity; [apply Hframe; [cbv; lia|discriminate]|reflexivity].
  - etransitivity; [apply Hframe; [cbv; lia|discriminate]|reflexivity].
Defined.

Lemma shared_list_accumulates_witness :
  exists mhp cwsp h1 h2,
    MTNaive_init recording_base mh_stub s_self s_model s_optimizer
      s_criterion VNone (VInt 1) (VInt 1) VNone VNone (VRef s_plugins)
      (VStr "classifier") (VBool false) sample_heap = Return VNone h1
    /\ CWRStar_init recording_base cwr_stub s_self s_model s_optimizer
         s_criterion (VStr "features") (VInt 50) VNone (VInt 1) (VInt 1)
         VNone VNone (VRef s_plugins) h1 = Return VNone h2
    /\ h2 !! s_plugins = Some (ListObj [VRef 4; VRef 5; mhp; cwsp]).
Proof.
  destruct (shared_list_accumulates recording_base mh_stub cwr_stub
              s_self s_self s_model s_optimizer s_criterion
              (VStr "features") (VInt 50) VNone (VInt 1) (VInt 1) VNone
              VNone (VStr "classifier") (VBool false) s_plugins
              [VRef 4; VRef 5] sample_heap _ _ _ _
              (recording_plugin_keeps _ _ _)
              (recording_plugin_keeps _ _ _)
              (fun self => recording_base_keeps _ self)
              eq_refl eq_refl eq_refl)
    as (mhp & hm & cwsp & hc & _ & _ & _ & H2).
  exists mhp, cwsp. eexists. eexists.
  split; [reflexivity|]. split; [reflexivity|]. exact H2.
Defined.

Lemma unknown_keyword_rejected_witness :
  exists msg,
    Naive_call recording_base s_self [s_model; s_optimizer; s_criterion]
      [("num_classes", VInt 10)] sample_heap
    = Raise (TypeError msg) sample_heap.
Proof.
  apply (proj1 (unknown_keyword_rejected recording_base mh_stub cwr_stub
                  s_self [s_model; s_optimizer; s_criterion]
                  [("num_classes", VInt 10)] sample_heap
                  "num_classes" (VInt 10) eq_refl)).
  simpl. intuition discriminate.
Defined.

Lemma keyword_argument_bound_witness :
  bind_args CWRStar_sig [s_model; s_optimizer; s_criterion]
    [("second_last_layer_name", VStr "features"); ("num_classes", VInt 10)]
  = inr [s_model; s_optimizer; s_criterion; VStr "features"; VInt 10;
         VNone; VInt 1; VInt 1; VNone; VNone; VNone]
  /\ [s_model; s_optimizer; s_criterion; VStr "features"; VInt 10;
      VNone; VInt 1; VInt 1; VNone; VNone; VNone] !! 4 = Some (VInt 10).
Proof.
  split; [reflexivity|].
  apply (keyword_argument_bound CWRStar_sig
           [s_model; s_optimizer; s_criterion]
           [("second_last_layer_name", VStr "features");
            ("num_classes", VInt 10)]
           _ 4 (optional "num_classes" (VInt 50)) (VInt 10)
           (or_intror (or_intror (or_introl eq_refl)))
           eq_refl eq_refl (le_S _ _ (le_n 3)) eq_refl).
Defined.

Lemma duplicate_argument_rejected_witness :
  exists msg,
    MTNaive_call recording_base mh_stub s_self
      [s_model; s_optimizer; s_criterion] [("optimizer", s_optimizer)]
      sample_heap
    = Raise (TypeError msg) sample_heap.
Proof.
  apply (proj1 (proj2
           (duplicate_argument_rejected recording_base mh_stub cwr_stub
              s_self [s_model; s_optimizer; s_criterion]
              [("optimizer", s_optimizer)] sample_heap 1 s_optimizer
              (le_S _ _ (le_n 2))))
           (required "optimizer") eq_refl eq_refl).
Defined.

Lemma scalar_plugins_argument_raises_witness :
  exists msg h1,
    MTNaive_init recording_base mh_stub s_self s_model s_optimizer
      s_criterion VNone (VInt 1) (VInt 1) VNone VNone (VStr "replay")
      (VStr "classifier") (VBool false) sample_heap
    = Raise (AttributeError msg) h1
    /\ length h1 = 9.
Proof.
  destruct (scalar_plugins_argument_raises recording_base mh_stub cwr_stub
              s_self s_model s_optimizer s_criterion (VStr "features")
              (VInt 50) VNone (VInt 1) (VInt 1) VNone VNone (VStr "replay")
              (VStr "classifier") (VBool false) sample_heap _ _ _ _
              eq_refl eq_refl eq_refl) as [[msg Hm] _].
  exists msg. eexists. split; [exact Hm|reflexivity].
Defined.

Lemma MTNaive_default_head_plugin_witness :
  exists h',
    MTNaive_call recording_base mh_stub s_self
      [s_model; s_optimizer; s_criterion] [("train_epochs", VInt 4)]
      sample_heap = Return VNone h'
    /\ h' !! 8 = Some (Instance "MultiHeadPlugin"
                         [("model", s_model);
                          ("classifier_field", VStr "classifier");
                          ("keep_initial_layer", VBool false)])
    /\ h' !! 9 = Some (ListObj [VRef 8]).
Proof.
  eexists. split; [|split].
  - etransitivity.
    + apply (MTNaive_default_head_plugin recording_base mh_stub s_self
               [s_model; s_optimizer; s_criterion]
               [("train_epochs", VInt 4)]
               [s_model; s_optimizer; s_criterion; VNone; VInt 1; VInt 4;
                VNone; VNone; VNone; VStr "classifier"; VBool false]
               sample_heap eq_refl).
      * simpl. lia.
      * reflexivity.
      * reflexivity.
    + reflexivity.
  - reflexivity.
  - reflexivity.
Defined.

Lemma positional_arity_witness :
  (exists msg,
      Naive_call recording_base s_self [s_model; s_optimizer] [] sample_heap
      = Raise (TypeError msg) sample_heap)
  /\ (exists h',
        Naive_call recording_base s_self
          [s_model; s_optimizer; s_criterion] [] sample_heap
        = Return VNone h').
Proof.
  split.
  - apply (proj2 (proj1 (positional_arity recording_base mh_stub cwr_stub
                           s_self [s_model; s_optimizer] sample_heap))).
    simpl. lia.
  - destruct (proj1 (proj1 (positional_arity recording_base mh_stub cwr_stub
                              s_self [s_model; s_optimizer; s_criterion]
                              sample_heap)))
      as (vs & Hb & Hcall); [simpl; lia|].
    inversion Hb; subst vs.
    eexists. etransitivity; [exact Hcall|reflexivity].
Defined.
